(** * Restaurant table booking: availability engine and booking lifecycle

    A shallow embedding of the booking workflow of the repository
    ([models/booking.py], [models/table.py], [models/user.py], [pg_driver.py],
    [backend.py] and the creation handler of [gui.py]) together with the
    properties its design document states about it.

    Layout: values and rows, the relational store (PostgreSQL under the
    schema provisioned by [backend.create_tables]), the driver, the models,
    the backend and the form handler; then the properties. *)

From stdpp Require Import gmap strings list fin_maps sorting.
From Stdlib Require Import ZArith Lia.

#[local] Open Scope Z_scope.

(** ** Values *)

(** [datetime.date]: Python orders dates by (year, month, day). *)
Record date := mk_date { year : Z; month : Z; day : Z }.

(** [datetime.time] (naive, as psycopg2 returns a TIME column). *)
Record time := mk_time { hour : Z; minute : Z; second : Z; microsecond : Z }.

#[global] Instance date_eq_dec : EqDecision date.
Proof. solve_decision. Defined.

#[global] Instance time_eq_dec : EqDecision time.
Proof. solve_decision. Defined.

(** [a < b] on dates. *)
Definition date_ltb (a b : date) : bool :=
  if year a <? year b then true
  else if year b <? year a then false
  else if month a <? month b then true
  else if month b <? month a then false
  else day a <? day b.

(** Microseconds since midnight. [datetime.combine(date.today(), t)] puts both
    times on one date, so the difference of two such datetimes is the
    difference of these offsets. *)
Definition time_micros (t : time) : Z :=
  ((hour t * 60 + minute t) * 60 + second t) * 1000000 + microsecond t.

(** [abs((combine(today, a) - combine(today, b)).total_seconds())], kept in
    microseconds.  [total_seconds()] divides the microsecond count by 10^6 in
    floating point; below one day that division is monotone and never rounds
    a count under 3600 * 10^6 up to 3600.0, so comparing the count with
    3600 * 10^6 decides [time_diff < 3600] exactly. *)
Definition time_diff (a b : time) : Z := Z.abs (time_micros a - time_micros b).

Definition one_hour : Z := 3600 * 1000000.

(** Python values that travel in the [data] and [where] dictionaries. *)
Inductive value :=
| VNull
| VInt (n : Z)
| VStr (s : string)
| VBool (b : bool)
| VDate (d : date)
| VTime (t : time)
| VStamp (ts : Z).

#[global] Instance value_eq_dec : EqDecision value.
Proof. solve_decision. Defined.

Abbreviation dict := (gmap string value).

Definition nullable {A} (f : A -> value) (o : option A) : value :=
  match o with Some a => f a | None => VNull end.

(** *** Column assignment

    [SET k = v] / [VALUES] for one typed column: a key absent from the
    dictionary keeps [old]; a value of another type (or NULL for a NOT NULL
    column) is an SQL error, [None]. *)

Definition set_int (d : dict) (k : string) (old : Z) : option Z :=
  match d !! k with
  | None => Some old
  | Some (VInt n) => Some n
  | Some _ => None
  end.

Definition set_str (d : dict) (k : string) (old : string) : option string :=
  match d !! k with
  | None => Some old
  | Some (VStr s) => Some s
  | Some _ => None
  end.

Definition set_date (d : dict) (k : string) (old : date) : option date :=
  match d !! k with
  | None => Some old
  | Some (VDate x) => Some x
  | Some _ => None
  end.

Definition set_time (d : dict) (k : string) (old : time) : option time :=
  match d !! k with
  | None => Some old
  | Some (VTime x) => Some x
  | Some _ => None
  end.

Definition set_opt_str (d : dict) (k : string) (old : option string)
  : option (option string) :=
  match d !! k with
  | None => Some old
  | Some VNull => Some None
  | Some (VStr s) => Some (Some s)
  | Some _ => None
  end.

Definition set_opt_stamp (d : dict) (k : string) (old : option Z)
  : option (option Z) :=
  match d !! k with
  | None => Some old
  | Some VNull => Some None
  | Some (VStamp s) => Some (Some s)
  | Some _ => None
  end.

Definition set_opt_bool (d : dict) (k : string) (old : option bool)
  : option (option bool) :=
  match d !! k with
  | None => Some old
  | Some VNull => Some None
  | Some (VBool b) => Some (Some b)
  | Some _ => None
  end.

(** ** Rows of the three relations

    A row fetched through [RealDictCursor] is a dictionary with one key per
    column; the schema fixes the keys and the type behind each, so rows are
    records and [row.get("col")] is a projection. *)

Module Users.
Record row := mk
    { id : Z; name : string; email : string; phone : option string;
      password_hash : string; role : option string;
      created_at : option Z; updated_at : option Z; is_active : option bool }.

Definition to_dict (r : row) : dict :=
    list_to_map
      [ ("id", VInt (id r)); ("name", VStr (name r)); ("email", VStr (email r));
        ("phone", nullable VStr (phone r));
        ("password_hash", VStr (password_hash r));
        ("role", nullable VStr (role r));
        ("created_at", nullable VStamp (created_at r));
        ("updated_at", nullable VStamp (updated_at r));
        ("is_active", nullable VBool (is_active r)) ].

  (** Columns a statement may assign ([id] is GENERATED ALWAYS). *)
Definition columns : gset string :=
    list_to_set [ "name"; "email"; "phone"; "password_hash"; "role";
                  "created_at"; "updated_at"; "is_active" ].

  (** NOT NULL columns without a default. *)
Definition required : gset string :=
    list_to_set [ "name"; "email"; "password_hash" ].

Definition blank (n now : Z) : row :=
    mk n "" "" None "" (Some "client") (Some now) (Some now) (Some true).

Definition assign (d : dict) (r : row) : option row :=
    a ← set_str d "name" (name r);
    b ← set_str d "email" (email r);
    c ← set_opt_str d "phone" (phone r);
    e ← set_str d "password_hash" (password_hash r);
    f ← set_opt_str d "role" (role r);
    g ← set_opt_stamp d "created_at" (created_at r);
    h ← set_opt_stamp d "updated_at" (updated_at r);
    i ← set_opt_bool d "is_active" (is_active r);
    Some (mk (id r) a b c e f g h i).
End Users.

Module Tables.
Record row := mk
    { id : Z; table_number : Z; seats : Z; status : option string }.

Definition to_dict (r : row) : dict :=
    list_to_map
      [ ("id", VInt (id r)); ("table_number", VInt (table_number r));
        ("seats", VInt (seats r)); ("status", nullable VStr (status r)) ].

Definition columns : gset string :=
    list_to_set [ "table_number"; "seats"; "status" ].

Definition required : gset string :=
    list_to_set [ "table_number"; "seats" ].

Definition blank (n now : Z) : row := mk n 0 0 (Some "available").

Definition assign (d : dict) (r : row) : option row :=
    a ← set_int d "table_number" (table_number r);
    b ← set_int d "seats" (seats r);
    c ← set_opt_str d "status" (status r);
    Some (mk (id r) a b c).

Definition valid_statuses : list string := [ "available"; "unavailable" ].
End Tables.

Module Bookings.
Record row := mk
    { id : Z; user_id : Z; table_id : Z;
      booking_date : date; booking_time : time; status : option string;
      created_at : option Z; updated_at : option Z }.

Definition to_dict (r : row) : dict :=
    list_to_map
      [ ("id", VInt (id r)); ("user_id", VInt (user_id r));
        ("table_id", VInt (table_id r));
        ("booking_date", VDate (booking_date r));
        ("booking_time", VTime (booking_time r));
        ("status", nullable VStr (status r));
        ("created_at", nullable VStamp (created_at r));
        ("updated_at", nullable VStamp (updated_at r)) ].

Definition columns : gset string :=
    list_to_set [ "user_id"; "table_id"; "booking_date"; "booking_time";
                  "status"; "created_at"; "updated_at" ].

Definition required : gset string :=
    list_to_set [ "user_id"; "table_id"; "booking_date"; "booking_time" ].

Definition blank (n now : Z) : row :=
    mk n 0 0 (mk_date 0 0 0) (mk_time 0 0 0 0)
       (Some "pending") (Some now) (Some now).

Definition assign (d : dict) (r : row) : option row :=
    a ← set_int d "user_id" (user_id r);
    b ← set_int d "table_id" (table_id r);
    c ← set_date d "booking_date" (booking_date r);
    e ← set_time d "booking_time" (booking_time r);
    f ← set_opt_str d "status" (status r);
    g ← set_opt_stamp d "created_at" (created_at r);
    h ← set_opt_stamp d "updated_at" (updated_at r);
    Some (mk (id r) a b c e f g h).

Definition valid_statuses : list string :=
    [ "reserved"; "cancelled"; "pending" ].
End Bookings.

(** ** The relational store

    PostgreSQL under the schema of [backend.create_tables]: three relations
    with identity keys, [bookings] referencing [users] and [tables] with
    ON DELETE CASCADE.  The store is modelled while it is reachable; the
    failures a statement can meet there (unknown relation or column, a value
    of the wrong type, a violated constraint) are its [None] results, which
    the driver turns into its [except] results. *)

Record Rel (R : Type) := mk_rel { rows : list R; last_id : Z }.

Arguments mk_rel {R} _ _.
Arguments rows {R} _.
Arguments last_id {R} _.

Record Database := mk_db
  { users : Rel Users.row;
    tables : Rel Tables.row;
    bookings : Rel Bookings.row }.

(** CHECK (status IN (...)): a NULL status passes, as in SQL. *)
Definition status_check (valid : list string) (s : option string) : bool :=
  match s with
  | None => true
  | Some x => bool_decide (x ∈ valid)
  end.

(** What a relation of the schema provides to the generic statements. *)
Class Relation (R : Type) := {
  rel_name : string;
  rel_columns : gset string;
  rel_required : gset string;
  rel_blank : Z -> Z -> R;
  rel_id : R -> Z;
  rel_to_dict : R -> dict;
  rel_assign : dict -> R -> option R;
  rel_get : Database -> Rel R;
  rel_put : Rel R -> Database -> Database;
  (** constraints of a written row, judged in the store after the write *)
  rel_row_ok : Database -> R -> bool;
  (** referential actions fired by deleting the rows with these keys *)
  rel_cascade : list Z -> Database -> Database
}.

Arguments rel_name R {_}.
Arguments rel_columns R {_}.
Arguments rel_required R {_}.

Definition drop_bookings (gone : Bookings.row -> Prop)
  `{!∀ b, Decision (gone b)} (d : Database) : Database :=
  mk_db (users d) (tables d)
        (mk_rel (filter (λ b, ¬ gone b) (rows (bookings d))) (last_id (bookings d))).

#[global] Instance users_relation : Relation Users.row := {
  rel_name := "users";
  rel_columns := Users.columns;
  rel_required := Users.required;
  rel_blank := Users.blank;
  rel_id := Users.id;
  rel_to_dict := Users.to_dict;
  rel_assign := Users.assign;
  rel_get := users;
  rel_put := λ r d, mk_db r (tables d) (bookings d);
  rel_row_ok := λ d r,
    bool_decide
      (length (filter (λ x, Users.email x = Users.email r) (rows (users d)))
       = 1%nat);
  rel_cascade := λ ids d, drop_bookings (λ b, Bookings.user_id b ∈ ids) d
}.

#[global] Instance tables_relation : Relation Tables.row := {
  rel_name := "tables";
  rel_columns := Tables.columns;
  rel_required := Tables.required;
  rel_blank := Tables.blank;
  rel_id := Tables.id;
  rel_to_dict := Tables.to_dict;
  rel_assign := Tables.assign;
  rel_get := tables;
  rel_put := λ r d, mk_db (users d) r (bookings d);
  rel_row_ok := λ d r,
    (0 <? Tables.seats r)
    && status_check Tables.valid_statuses (Tables.status r)
    && bool_decide
         (length (filter (λ x, Tables.table_number x = Tables.table_number r)
                         (rows (tables d))) = 1%nat);
  rel_cascade := λ ids d, drop_bookings (λ b, Bookings.table_id b ∈ ids) d
}.

#[global] Instance bookings_relation : Relation Bookings.row := {
  rel_name := "bookings";
  rel_columns := Bookings.columns;
  rel_required := Bookings.required;
  rel_blank := Bookings.blank;
  rel_id := Bookings.id;
  rel_to_dict := Bookings.to_dict;
  rel_assign := Bookings.assign;
  rel_get := bookings;
  rel_put := λ r d, mk_db (users d) (tables d) r;
  rel_row_ok := λ d r,
    bool_decide (Bookings.user_id r ∈ (Users.id <$> rows (users d)))
    && bool_decide (Bookings.table_id r ∈ (Tables.id <$> rows (tables d)))
    && status_check Bookings.valid_statuses (Bookings.status r);
  rel_cascade := λ _ d, d
}.

(** *** Statements over one relation *)

Section Statements.
Context {R : Type} `{Relation R}.

(** [WHERE k1 = v1 AND k2 = v2 ...]: every pair of the filter is the row's
    value of that column.  [col = NULL] is never true, and a column the
    relation does not have makes the statement fail, which affects no row
    either. *)
Definition matches (w : dict) (r : R) : Prop :=
  map_Forall (λ k v, v ≠ VNull ∧ rel_to_dict r !! k = Some v) w.

#[global] Instance matches_dec w r : Decision (matches w r).
Proof. unfold matches. apply _. Defined.

(** [SELECT * FROM r WHERE w LIMIT n]; a negative LIMIT is an error. *)
Definition sql_select (w : dict) (limit : option Z) (d : Database)
  : option (list R) * Database :=
  let found := filter (matches w) (rows (rel_get d)) in
  match limit with
  | None => (Some found, d)
  | Some n => if n <? 0 then (None, d) else (Some (take (Z.to_nat n) found), d)
  end.

(** [INSERT INTO r (keys) VALUES (values) RETURNING id].  The identity value
    is drawn before the constraints are checked and is not given back when
    they fail. *)
Definition sql_insert (now : Z) (data : dict) (d : Database)
  : option Z * Database :=
  let r0 := rel_get d in
  if bool_decide (dom data ⊆ rel_columns R ∧ rel_required R ⊆ dom data) then
    match rel_assign data (rel_blank (last_id r0 + 1) now) with
    | Some r =>
        let d' := rel_put (mk_rel (rows r0 ++ [r]) (last_id r0 + 1)) d in
        if rel_row_ok d' r then (Some (last_id r0 + 1), d')
        else (None, rel_put (mk_rel (rows r0) (last_id r0 + 1)) d)
    | None => (None, d)
    end
  else (None, d).

(** [UPDATE r SET data WHERE w], returning the row count; a constraint
    violated by a rewritten row aborts the whole statement. *)
Definition sql_update (data w : dict) (d : Database) : option Z * Database :=
  let r0 := rel_get d in
  let hit := filter (matches w) (rows r0) in
  if bool_decide (dom data ⊆ rel_columns R) then
    match mapM (λ r, if decide (matches w r) then rel_assign data r else Some r)
               (rows r0),
          mapM (rel_assign data) hit with
    | Some new, Some changed =>
        let d' := rel_put (mk_rel new (last_id r0)) d in
        if forallb (rel_row_ok d') changed
        then (Some (Z.of_nat (length hit)), d')
        else (None, d)
    | _, _ => (None, d)
    end
  else (None, d).

(** [DELETE FROM r WHERE w], returning the row count, with the cascade. *)
Definition sql_delete (w : dict) (d : Database) : option Z * Database :=
  let r0 := rel_get d in
  let hit := filter (matches w) (rows r0) in
  let d' := rel_put (mk_rel (filter (λ r, ¬ matches w r) (rows r0)) (last_id r0)) d in
  (Some (Z.of_nat (length hit)), rel_cascade (rel_id <$> hit) d').

End Statements.

(** *** Statements by relation name *)

Definition sql_insert_into (table_name : string) (now : Z) (data : dict)
  (d : Database) : option Z * Database :=
  if decide (table_name = "users") then sql_insert (R:=Users.row) now data d
  else if decide (table_name = "tables") then sql_insert (R:=Tables.row) now data d
  else if decide (table_name = "bookings") then sql_insert (R:=Bookings.row) now data d
  else (None, d).

Definition sql_update_in (table_name : string) (data w : dict) (d : Database)
  : option Z * Database :=
  if decide (table_name = "users") then sql_update (R:=Users.row) data w d
  else if decide (table_name = "tables") then sql_update (R:=Tables.row) data w d
  else if decide (table_name = "bookings") then sql_update (R:=Bookings.row) data w d
  else (None, d).

Definition sql_delete_from (table_name : string) (w : dict) (d : Database)
  : option Z * Database :=
  if decide (table_name = "users") then sql_delete (R:=Users.row) w d
  else if decide (table_name = "tables") then sql_delete (R:=Tables.row) w d
  else if decide (table_name = "bookings") then sql_delete (R:=Bookings.row) w d
  else (None, d).


(** [WHERE] on a row seen as a dictionary. *)
Definition dict_matches (w : dict) (r : dict) : Prop :=
  map_Forall (λ k v, v ≠ VNull ∧ r !! k = Some v) w.

#[global] Instance dict_matches_dec w r : Decision (dict_matches w r).
Proof. unfold dict_matches. apply _. Defined.

(** *** The raw query of the availability check

    [SELECT * FROM bookings WHERE table_id = %s AND booking_date = %s
     AND status IN ('reserved', 'pending')] with [params = (table_id,
    booking_date)]. *)

Inductive raw_query := SelectActiveBookings.

Definition is_active (b : Bookings.row) : Prop :=
  Bookings.status b = Some "reserved" ∨ Bookings.status b = Some "pending".

#[global] Instance is_active_dec b : Decision (is_active b).
Proof. unfold is_active. apply _. Defined.

Definition candidate (table_id : Z) (booking_date : date) (b : Bookings.row)
  : Prop :=
  Bookings.table_id b = table_id ∧ Bookings.booking_date b = booking_date
  ∧ is_active b.

#[global] Instance candidate_dec t dd b : Decision (candidate t dd b).
Proof. unfold candidate. apply _. Defined.

Definition sql_raw (q : raw_query) (params : list value) (d : Database)
  : option (list Bookings.row) * Database :=
  match q, params with
  | SelectActiveBookings, [VInt table_id; VDate booking_date] =>
      (Some (filter (candidate table_id booking_date) (rows (bookings d))), d)
  | SelectActiveBookings, _ => (None, d)
  end.

(** *** ORDER BY

    [SELECT ... WHERE w ORDER BY o LIMIT n]: the clause is given by the
    arrangement it asks for.  The three clauses of the repository follow;
    rows that a clause does not tell apart keep the order of the store. *)

Definition sql_select_ordered {R : Type} `{Relation R} (w : dict)
  (order_by : list R -> list R) (limit : option Z) (d : Database)
  : option (list R) * Database :=
  let found := order_by (filter (matches w) (rows (rel_get d))) in
  match limit with
  | None => (Some found, d)
  | Some n => if n <? 0 then (None, d) else (Some (take (Z.to_nat n) found), d)
  end.

(** ["booking_date DESC, booking_time DESC"] *)
Definition later_first (a b : Bookings.row) : Prop :=
  date_ltb (Bookings.booking_date b) (Bookings.booking_date a) = true
  ∨ (Bookings.booking_date a = Bookings.booking_date b
     ∧ time_micros (Bookings.booking_time b)
       ≤ time_micros (Bookings.booking_time a)).

#[global] Instance later_first_dec a b : Decision (later_first a b).
Proof. unfold later_first. apply _. Defined.

Definition booking_date_desc : list Bookings.row -> list Bookings.row :=
  merge_sort later_first.

(** ["created_at DESC"]: NULL sorts first in a descending order. *)
Definition newer_first (a b : Users.row) : Prop :=
  match Users.created_at a, Users.created_at b with
  | None, _ => True
  | Some _, None => False
  | Some x, Some y => y ≤ x
  end.

#[global] Instance newer_first_dec a b : Decision (newer_first a b).
Proof.
  unfold newer_first.
  destruct (Users.created_at a), (Users.created_at b); apply _.
Defined.

Definition created_at_desc : list Users.row -> list Users.row :=
  merge_sort newer_first.

(** ["table_number ASC"] *)
Definition lower_number_first (a b : Tables.row) : Prop :=
  Tables.table_number a ≤ Tables.table_number b.

#[global] Instance lower_number_first_dec a b : Decision (lower_number_first a b).
Proof. unfold lower_number_first. apply _. Defined.

Definition table_number_asc : list Tables.row -> list Tables.row :=
  merge_sort lower_number_first.

(** ** Effects: the store, the clock and the statements sent

    Every driver method opens its own connection, sends one statement and
    closes it; [log] records the statements in the order they are sent.
    [today] is [date.today()] and [now] is [datetime.now()]. *)

Inductive db_call :=
| SqlInsert (table_name : string) (data : dict)
| SqlSelect (table_name : string) (where_ : dict) (limit : option Z)
| SqlUpdate (table_name : string) (data where_ : dict)
| SqlDelete (table_name : string) (where_ : dict)
| SqlRaw (q : raw_query) (params : list value).

Record World := mk_world
  { db : Database; today : date; now : Z; log : list db_call }.

Definition M (A : Type) : Type := World -> A * World.

Definition ret {A} (a : A) : M A := λ w, (a, w).

Definition bind {A B} (m : M A) (k : A -> M B) : M B :=
  λ w, let '(a, w') := m w in k a w'.

Notation "x <~ m ;; k" := (bind m (λ x, k))
  (at level 100, m at next level, right associativity, only parsing).

Definition get_today : M date := λ w, (today w, w).

Definition get_now : M Z := λ w, (now w, w).

(** [with self._get_cursor() as (cursor, conn): cursor.execute(...)] inside
    [try]: the statement is sent; [None] is the [except] branch. *)
Definition execute {A} (c : db_call) (run : Database -> option A * Database)
  : M (option A) :=
  λ w, let '(r, d) := run (db w) in
       (r, mk_world d (today w) (now w) (log w ++ [c])).

(** Exceptions that escape a call. *)
Inductive exn := ValueError.

Inductive result (A : Type) :=
| Ok (a : A)
| Raise (e : exn).

Arguments Ok {A} _.
Arguments Raise {A} _.

(** ** [pg_driver.PostgreSQLDriver] *)

Module PostgreSQLDriver.

(** [insert(table_name, data)] *)
Definition insert (table_name : string) (data : dict) : M (option Z) :=
  if bool_decide (data = ∅) then ret None
  else
    t <~ get_now ;;
    execute (SqlInsert table_name data) (sql_insert_into table_name t data).

(** [select(table_name, columns=None, where, order_by=None, limit)]: the
    callers embedded here leave [columns] and [order_by] at their defaults.
    [if where:] and [if limit:] skip an empty filter and a zero limit. *)
Definition select (R : Type) `{Relation R} (where_ : dict) (limit : option Z)
  : M (list R) :=
  let limit :=
    match limit with
    | Some n => if n =? 0 then None else Some n
    | None => None
    end in
  r <~ execute (SqlSelect (rel_name R) where_ limit) (sql_select where_ limit) ;;
  ret (default [] r).

(** [select_one(table_name, where)] *)
Definition select_one (R : Type) `{Relation R} (where_ : dict) : M (option R) :=
  results <~ select R where_ (Some 1) ;;
  ret (head results).

(** [update(table_name, data, where)] *)
Definition update (table_name : string) (data where_ : dict) : M Z :=
  if bool_decide (data = ∅) || bool_decide (where_ = ∅) then ret 0
  else
    r <~ execute (SqlUpdate table_name data where_)
                 (sql_update_in table_name data where_) ;;
    ret (default 0 r).

(** [delete(table_name, where)] *)
Definition delete (table_name : string) (where_ : dict) : M (result Z) :=
  if bool_decide (where_ = ∅) then ret (Raise ValueError)
  else
    r <~ execute (SqlDelete table_name where_) (sql_delete_from table_name where_) ;;
    ret (Ok (default 0 r)).

(** [execute_raw(query, params)] *)
Definition execute_raw (q : raw_query) (params : list value)
  : M (list Bookings.row) :=
  r <~ execute (SqlRaw q params) (sql_raw q params) ;;
  ret (default [] r).

(** [select(table_name, where=..., order_by=..., limit=...)] when the caller
    passes an [order_by]. *)
Definition select_ordered (R : Type) `{Relation R} (where_ : dict)
  (order_by : list R -> list R) (limit : option Z) : M (list R) :=
  let limit :=
    match limit with
    | Some n => if n =? 0 then None else Some n
    | None => None
    end in
  r <~ execute (SqlSelect (rel_name R) where_ limit)
         (sql_select_ordered where_ order_by limit) ;;
  ret (default [] r).

End PostgreSQLDriver.

(** ** [models.table.TableModel] *)

Module TableModel.

Definition get_table_by_id (table_id : Z) : M (option Tables.row) :=
  PostgreSQLDriver.select_one Tables.row {[ "id" := VInt table_id ]}.

Definition get_table_by_number (table_number : Z) : M (option Tables.row) :=
  PostgreSQLDriver.select_one Tables.row {[ "table_number" := VInt table_number ]}.

Definition table_name : string := "tables".

(** [create_table_item(table_number, seats, status="available")] *)
Definition create_table_item (table_number seats : Z) (status : option string)
  : M (option Z) :=
  let status := default "available" status in
  if seats <=? 0 then ret None
  else if negb (bool_decide (status ∈ Tables.valid_statuses)) then ret None
  else
    let data : dict :=
      <[ "table_number" := VInt table_number ]>
      (<[ "seats" := VInt seats ]>
      (<[ "status" := VStr status ]> ∅)) in
    PostgreSQLDriver.insert table_name data.

(** The [data] dictionary of [update_table]: [None] where a check returns
    [False]. *)
Definition update_data (table_number seats : option Z) (status : option string)
  : option dict :=
  let data : dict := ∅ in
  let data :=
    match table_number with
    | Some n => <[ "table_number" := VInt n ]> data
    | None => data
    end in
  match
    match seats with
    | Some n => if n <=? 0 then None else Some (<[ "seats" := VInt n ]> data)
    | None => Some data
    end
  with
  | None => None
  | Some data =>
      match status with
      | Some s =>
          if negb (bool_decide (s ∈ Tables.valid_statuses)) then None
          else Some (<[ "status" := VStr s ]> data)
      | None => Some data
      end
  end.

(** [update_table(table_id, table_number=None, seats=None, status=None)] *)
Definition update_table (table_id : Z) (table_number seats : option Z)
  (status : option string) : M bool :=
  match update_data table_number seats status with
  | None => ret false
  | Some data =>
      if bool_decide (data = ∅) then ret false
      else
        updated <~ PostgreSQLDriver.update table_name data
                     {[ "id" := VInt table_id ]} ;;
        ret (0 <? updated)
  end.

(** [delete_table(table_id)]; the [except] branch answers [False]. *)
Definition delete_table (table_id : Z) : M bool :=
  r <~ PostgreSQLDriver.delete table_name {[ "id" := VInt table_id ]} ;;
  match r with
  | Ok deleted => ret (0 <? deleted)
  | Raise _ => ret false
  end.

(** [table_exists(table_number)] *)
Definition table_exists (table_number : Z) : M bool :=
  table <~ get_table_by_number table_number ;;
  ret (bool_decide (table ≠ None)).

(** [set_status(table_id, status)] *)
Definition set_status (table_id : Z) (status : string) : M bool :=
  update_table table_id None None (Some status).

(** The loop of [get_all_tables] that keeps the tables within the seat
    bounds. *)
Fixpoint within_seats (min_seats max_seats : option Z) (tables : list Tables.row)
  : list Tables.row :=
  match tables with
  | [] => []
  | table :: rest =>
      let seats := Tables.seats table in
      if match min_seats with Some m => seats <? m | None => false end
      then within_seats min_seats max_seats rest
      else if match max_seats with Some m => m <? seats | None => false end
      then within_seats min_seats max_seats rest
      else table :: within_seats min_seats max_seats rest
  end.

(** [get_all_tables(status=None, min_seats=None, max_seats=None, limit=None,
    order_by="table_number ASC")] *)
Definition get_all_tables (status : option string) (min_seats max_seats : option Z)
  (limit : option Z) : M (list Tables.row) :=
  let where_ : dict :=
    match status with
    | Some s => if bool_decide (s = "") then ∅ else {[ "status" := VStr s ]}
    | None => ∅
    end in
  tables <~ PostgreSQLDriver.select_ordered Tables.row where_ table_number_asc
              limit ;;
  match min_seats, max_seats with
  | None, None => ret tables
  | _, _ => ret (within_seats min_seats max_seats tables)
  end.

End TableModel.

(** ** [models.user.UserModel]

    [_hash_password] is bcrypt with a fresh salt; it is a parameter here and
    the properties hold for whatever it returns. *)

Module UserModel.

Section WithHash.
Variable hash_password : string -> string.

Definition table_name : string := "users".

(** [update_user(user_id, name=None, email=None, phone=None, password=None,
    role=None, is_active=None)] *)
Definition update_user (user_id : Z) (name email phone password role : option string)
  (is_active : option bool) : M bool :=
  t <~ get_now ;;
  let data : dict := {[ "updated_at" := VStamp t ]} in
  let data :=
    match name with Some x => <[ "name" := VStr x ]> data | None => data end in
  let data :=
    match email with Some x => <[ "email" := VStr x ]> data | None => data end in
  let data :=
    match phone with Some x => <[ "phone" := VStr x ]> data | None => data end in
  let data :=
    match password with
    | Some x => <[ "password_hash" := VStr (hash_password x) ]> data
    | None => data
    end in
  let data :=
    match role with Some x => <[ "role" := VStr x ]> data | None => data end in
  let data :=
    match is_active with
    | Some x => <[ "is_active" := VBool x ]> data
    | None => data
    end in
  updated <~ PostgreSQLDriver.update table_name data {[ "id" := VInt user_id ]} ;;
  ret (0 <? updated).

(** [delete_user(user_id, hard_delete=False)] *)
Definition delete_user (user_id : Z) (hard_delete : bool) : M bool :=
  if hard_delete then
    r <~ PostgreSQLDriver.delete table_name {[ "id" := VInt user_id ]} ;;
    match r with
    | Ok deleted => ret (0 <? deleted)
    | Raise _ => ret false
    end
  else update_user user_id None None None None None (Some false).

End WithHash.

(** [get_user_by_id(user_id)] *)
Definition get_user_by_id (user_id : Z) : M (option Users.row) :=
  PostgreSQLDriver.select_one Users.row {[ "id" := VInt user_id ]}.

(** [get_user_by_email(email)] *)
Definition get_user_by_email (email : string) : M (option Users.row) :=
  PostgreSQLDriver.select_one Users.row {[ "email" := VStr email ]}.

(** [get_all_users(active_only=False, role=None, limit=None,
    order_by="created_at DESC")] *)
Definition get_all_users (active_only : bool) (role : option string)
  (limit : option Z) : M (list Users.row) :=
  let where_ : dict := ∅ in
  let where_ :=
    if active_only then <[ "is_active" := VBool true ]> where_ else where_ in
  let where_ :=
    match role with
    | Some r => if bool_decide (r = "") then where_
                else <[ "role" := VStr r ]> where_
    | None => where_
    end in
  PostgreSQLDriver.select_ordered Users.row where_ created_at_desc limit.

End UserModel.

(** ** [models.booking.BookingModel] *)

Module BookingModel.

Definition table_name : string := "bookings".

Definition valid_statuses : list string := [ "reserved"; "cancelled"; "pending" ].

(** [create_booking(user_id, table_id, booking_date, booking_time,
    status="pending")]; [status = None] is a call that leaves the keyword
    out. *)
Definition create_booking (user_id table_id : Z) (booking_date : date)
  (booking_time : time) (status : option string) : M (option Z) :=
  let status := default "pending" status in
  if negb (bool_decide (status ∈ valid_statuses)) then ret None
  else
    today <~ get_today ;;
    if date_ltb booking_date today then ret None
    else
      t <~ get_now ;;
      let data : dict :=
        <[ "user_id" := VInt user_id ]>
        (<[ "table_id" := VInt table_id ]>
        (<[ "booking_date" := VDate booking_date ]>
        (<[ "booking_time" := VTime booking_time ]>
        (<[ "status" := VStr status ]>
        (<[ "created_at" := VStamp t ]>
        (<[ "updated_at" := VStamp t ]> ∅)))))) in
      PostgreSQLDriver.insert table_name data.

(** The loop of [check_table_availability] over the fetched bookings. *)
Fixpoint no_conflict (booking_time : time) (bookings : list Bookings.row)
  : bool :=
  match bookings with
  | [] => true
  | booking :: rest =>
      if time_diff booking_time (Bookings.booking_time booking) <? one_hour
      then false
      else no_conflict booking_time rest
  end.

(** [check_table_availability(table_id, booking_date, booking_time)] *)
Definition check_table_availability (table_id : Z) (booking_date : date)
  (booking_time : time) : M bool :=
  table <~ TableModel.get_table_by_id table_id ;;
  match table with
  | None => ret false
  | Some table =>
      if bool_decide (Tables.status table = Some "unavailable") then ret false
      else
        bookings <~ PostgreSQLDriver.execute_raw SelectActiveBookings
                      [VInt table_id; VDate booking_date] ;;
        ret (no_conflict booking_time bookings)
  end.

(** The [data] dictionary [update_booking] builds before its checks fail or
    pass: [None] where a check returns [False]. *)
Definition update_data (t : Z) (today : date) (user_id table_id : option Z)
  (booking_date : option date) (booking_time : option time)
  (status : option string) : option dict :=
  let data : dict := {[ "updated_at" := VStamp t ]} in
  let data :=
    match user_id with Some u => <[ "user_id" := VInt u ]> data | None => data end in
  let data :=
    match table_id with Some x => <[ "table_id" := VInt x ]> data | None => data end in
  match
    match booking_date with
    | Some dd =>
        if date_ltb dd today then None
        else Some (<[ "booking_date" := VDate dd ]> data)
    | None => Some data
    end
  with
  | None => None
  | Some data =>
      let data :=
        match booking_time with
        | Some x => <[ "booking_time" := VTime x ]> data
        | None => data
        end in
      match status with
      | Some s =>
          if negb (bool_decide (s ∈ valid_statuses)) then None
          else Some (<[ "status" := VStr s ]> data)
      | None => Some data
      end
  end.

(** [update_booking(booking_id, user_id=None, table_id=None,
    booking_date=None, booking_time=None, status=None)] *)
Definition update_booking (booking_id : Z) (user_id table_id : option Z)
  (booking_date : option date) (booking_time : option time)
  (status : option string) : M bool :=
  t <~ get_now ;;
  today <~ get_today ;;
  match update_data t today user_id table_id booking_date booking_time status with
  | None => ret false
  | Some data =>
      if bool_decide (data = ∅) || bool_decide (size data = 1%nat) then ret false
      else
        updated <~ PostgreSQLDriver.update table_name data
                     {[ "id" := VInt booking_id ]} ;;
        ret (0 <? updated)
  end.

(** [set_status(booking_id, status)] *)
Definition set_status (booking_id : Z) (status : string) : M bool :=
  update_booking booking_id None None None None (Some status).

(** [get_booking_by_id(booking_id)] *)
Definition get_booking_by_id (booking_id : Z) : M (option Bookings.row) :=
  PostgreSQLDriver.select_one Bookings.row {[ "id" := VInt booking_id ]}.

(** [delete_booking(booking_id)]: the booking is fetched first (and not
    used), then deleted; the [except] branch answers [False]. *)
Definition delete_booking (booking_id : Z) : M bool :=
  booking <~ get_booking_by_id booking_id ;;
  r <~ PostgreSQLDriver.delete table_name {[ "id" := VInt booking_id ]} ;;
  match r with
  | Ok deleted => ret (0 <? deleted)
  | Raise _ => ret false
  end.

(** [get_bookings_by_user(user_id)] *)
Definition get_bookings_by_user (user_id : Z) : M (list Bookings.row) :=
  PostgreSQLDriver.select_ordered Bookings.row {[ "user_id" := VInt user_id ]}
    booking_date_desc None.

(** [get_bookings_by_table(table_id)] *)
Definition get_bookings_by_table (table_id : Z) : M (list Bookings.row) :=
  PostgreSQLDriver.select_ordered Bookings.row {[ "table_id" := VInt table_id ]}
    booking_date_desc None.

(** [get_all_bookings(status=None, booking_date=None, limit=None,
    order_by="booking_date DESC, booking_time DESC")] *)
Definition get_all_bookings (status : option string) (booking_date : option date)
  (limit : option Z) : M (list Bookings.row) :=
  let where_ : dict := ∅ in
  let where_ :=
    match status with
    | Some s => if bool_decide (s = "") then where_
                else <[ "status" := VStr s ]> where_
    | None => where_
    end in
  let where_ :=
    match booking_date with
    | Some dd => <[ "booking_date" := VDate dd ]> where_
    | None => where_
    end in
  PostgreSQLDriver.select_ordered Bookings.row where_ booking_date_desc limit.

End BookingModel.

(** ** [backend]: each function builds a driver and calls the model *)

Module backend.

Definition get_table (table_id table_number : option Z)
  : M (option Tables.row) :=
  match table_id with
  | Some i =>
      if negb (i =? 0) then TableModel.get_table_by_id i
      else match table_number with
           | Some n => TableModel.get_table_by_number n
           | None => ret None
           end
  | None =>
      match table_number with
      | Some n => TableModel.get_table_by_number n
      | None => ret None
      end
  end.

Definition create_booking (user_id table_id : Z) (booking_date : date)
  (booking_time : time) (status : option string) : M (option Z) :=
  BookingModel.create_booking user_id table_id booking_date booking_time status.

Definition update_booking (booking_id : Z) (user_id table_id : option Z)
  (booking_date : option date) (booking_time : option time)
  (status : option string) : M bool :=
  BookingModel.update_booking booking_id user_id table_id booking_date
    booking_time status.

Definition check_table_availability (table_id : Z) (booking_date : date)
  (booking_time : time) : M bool :=
  BookingModel.check_table_availability table_id booking_date booking_time.

Definition get_user (user_id : option Z) (email : option string)
  : M (option Users.row) :=
  let by_email :=
    match email with
    | Some e => if bool_decide (e = "") then ret None
                else UserModel.get_user_by_email e
    | None => ret None
    end in
  match user_id with
  | Some i => if negb (i =? 0) then UserModel.get_user_by_id i else by_email
  | None => by_email
  end.

Definition get_all_users (active_only : bool) (role : option string)
  (limit : option Z) : M (list Users.row) :=
  UserModel.get_all_users active_only role limit.

Definition get_all_tables (status : option string) (min_seats max_seats : option Z)
  (limit : option Z) : M (list Tables.row) :=
  TableModel.get_all_tables status min_seats max_seats limit.

Definition get_bookings_by_user (user_id : Z) : M (list Bookings.row) :=
  BookingModel.get_bookings_by_user user_id.

Definition get_bookings_by_table (table_id : Z) : M (list Bookings.row) :=
  BookingModel.get_bookings_by_table table_id.

Definition get_all_bookings (status : option string) (booking_date : option date)
  (limit : option Z) : M (list Bookings.row) :=
  BookingModel.get_all_bookings status booking_date limit.

End backend.

(** ** [gui.BookingsTab.create_booking]

    The handler once the form is read: [user_id] and [table_id] are the keys
    its lookups found and the date and time are parsed.  What follows is the
    handler from its table-status check to its final dialog. *)

Module BookingsTab.

Inductive dialog :=
| ErrorTableUnavailable
| ErrorSlotTaken
| ErrorNotCreated
| InfoCreated (booking_id : Z).

Definition create_booking (user_id table_id : Z) (booking_date : date)
  (booking_time : time) : M dialog :=
  table <~ backend.get_table (Some table_id) None ;;
  if match table with
     | Some table => bool_decide (Tables.status table = Some "unavailable")
     | None => false
     end
  then ret ErrorTableUnavailable
  else
    free <~ backend.check_table_availability table_id booking_date booking_time ;;
    if negb free then ret ErrorSlotTaken
    else
      booking_id <~ backend.create_booking user_id table_id booking_date
                      booking_time (Some "reserved") ;;
      match booking_id with
      | Some n => if n =? 0 then ret ErrorNotCreated else ret (InfoCreated n)
      | None => ret ErrorNotCreated
      end.

(** The text of a filter entry as the handler reads it: [if text:] and then
    [int(text)], which raises [ValueError] on anything but an integer. *)
Inductive int_entry :=
| Blank
| NotAnInteger
| Integer (n : Z).

(** The filter entries of the tab: status, user key, table key. *)
Record filters := mk_filters
  { filter_status : string; filter_user : int_entry; filter_table : int_entry }.

(** [refresh_user_list()] *)
Definition refresh_user_list : M unit :=
  users <~ backend.get_all_users true None None ;;
  ret tt.

(** [refresh_table_list()] *)
Definition refresh_table_list : M unit :=
  tables <~ backend.get_all_tables None None None None ;;
  ret tt.

(** The loop of [refresh_list]: for each booking the user and the table are
    looked up for display. *)
Fixpoint show_bookings (bookings : list Bookings.row) : M unit :=
  match bookings with
  | [] => ret tt
  | booking :: rest =>
      user <~ (if negb (Bookings.user_id booking =? 0)
               then backend.get_user (Some (Bookings.user_id booking)) None
               else ret None) ;;
      table <~ (if negb (Bookings.table_id booking =? 0)
                then backend.get_table (Some (Bookings.table_id booking)) None
                else ret None) ;;
      show_bookings rest
  end.

(** [refresh_list()] *)
Definition refresh_list (f : filters) : M unit :=
  let status :=
    if bool_decide (filter_status f = "") then None
    else Some (filter_status f) in
  bookings <~
    match filter_user f with
    | Integer user_id => backend.get_bookings_by_user user_id
    | NotAnInteger => ret []
    | Blank =>
        match filter_table f with
        | Integer table_id => backend.get_bookings_by_table table_id
        | NotAnInteger => ret []
        | Blank => backend.get_all_bookings status None None
        end
    end ;;
  _ <~ show_bookings bookings ;;
  _ <~ refresh_user_list ;;
  refresh_table_list.

(** [create_booking] to its end: after the success dialog the handler clears
    the form (no statement) and calls [refresh_list]; the rejections return
    at their dialog. *)
Definition create_booking_then_refresh (f : filters) (user_id table_id : Z)
  (booking_date : date) (booking_time : time) : M dialog :=
  shown <~ create_booking user_id table_id booking_date booking_time ;;
  match shown with
  | InfoCreated _ => _ <~ refresh_list f ;; ret shown
  | _ => ret shown
  end.

End BookingsTab.

(** ** Vocabulary of the properties *)

(** What the store returns for a table key. *)
Definition find_table (d : Database) (table_id : Z) : option Tables.row :=
  head (filter (λ r, Tables.id r = table_id) (rows (tables d))).

Definition sent (w : World) (calls : list db_call) : World :=
  mk_world (db w) (today w) (now w) (log w ++ calls).

Definition select_table (table_id : Z) : db_call :=
  SqlSelect "tables" {[ "id" := VInt table_id ]} (Some 1).

Definition select_active (table_id : Z) (booking_date : date) : db_call :=
  SqlRaw SelectActiveBookings [VInt table_id; VDate booking_date].

(** The verdict as a function of the store. *)
Definition verdict (d : Database) (table_id : Z) (booking_date : date)
  (booking_time : time) : bool :=
  match find_table d table_id with
  | None => false
  | Some table =>
      if bool_decide (Tables.status table = Some "unavailable") then false
      else BookingModel.no_conflict booking_time
             (filter (candidate table_id booking_date) (rows (bookings d)))
  end.

(** The scenario of the design document: table number 7 (key 1, four seats,
    available) with a reserved booking on 2025-06-01 at 19:00 and a cancelled
    one at 21:00; table number 8 (key 2) is unavailable. *)
Definition june1 : date := mk_date 2025 6 1.
Definition june2 : date := mk_date 2025 6 2.
Definition at_ (h m : Z) : time := mk_time h m 0 0.

Definition demo_db : Database :=
  mk_db
    (mk_rel [ Users.mk 1 "Anna" "anna@example.com" None "$2b$12$hash"
                (Some "client") (Some 0) (Some 0) (Some true) ] 1)
    (mk_rel [ Tables.mk 1 7 4 (Some "available");
              Tables.mk 2 8 2 (Some "unavailable") ] 2)
    (mk_rel [ Bookings.mk 1 1 1 june1 (at_ 19 0) (Some "reserved") (Some 0) (Some 0);
              Bookings.mk 2 1 1 june1 (at_ 21 0) (Some "cancelled") (Some 0) (Some 0) ] 2).

Definition demo : World := mk_world demo_db (mk_date 2025 5 20) 1000 [].

Definition not_cancelled (b : Bookings.row) : Prop :=
  Bookings.status b ≠ Some "cancelled".

#[global] Instance not_cancelled_dec b : Decision (not_cancelled b).
Proof. unfold not_cancelled. apply _. Defined.

Definition demo_purged : World :=
  mk_world
    (mk_db (users demo_db) (tables demo_db)
       (mk_rel [ Bookings.mk 1 1 1 june1 (at_ 19 0) (Some "reserved") (Some 0) (Some 0) ] 2))
    (mk_date 2025 5 20) 1000 [].

(** The row [update_booking] asks the store to write over [b]. *)
Definition rewrite_booking (t : Z) (user_id table_id : option Z)
  (booking_date : option date) (booking_time : option time)
  (status : option string) (b : Bookings.row) : Bookings.row :=
  Bookings.mk (Bookings.id b)
    (default (Bookings.user_id b) user_id)
    (default (Bookings.table_id b) table_id)
    (default (Bookings.booking_date b) booking_date)
    (default (Bookings.booking_time b) booking_time)
    (match status with Some s => Some s | None => Bookings.status b end)
    (Bookings.created_at b)
    (Some t).

Definition update_call (booking_id : Z) (data : dict) : db_call :=
  SqlUpdate "bookings" data {[ "id" := VInt booking_id ]}.

Definition with_bookings (d : Database) (l : list Bookings.row) : Database :=
  mk_db (users d) (tables d) (mk_rel l (last_id (bookings d))).

Definition rewrite_where (booking_id : Z) (f : Bookings.row → Bookings.row)
  (l : list Bookings.row) : list Bookings.row :=
  (λ b, if decide (Bookings.id b = booking_id) then f b else b) <$> l.

Definition with_id (booking_id : Z) (l : list Bookings.row) : list Bookings.row :=
  filter (λ b, Bookings.id b = booking_id) l.

(** Two active bookings of table 1 on one evening. *)
Definition busy : World :=
  mk_world
    (mk_db (users demo_db) (tables demo_db)
       (mk_rel [ Bookings.mk 1 1 1 june1 (at_ 19 0) (Some "reserved") (Some 0) (Some 0);
                 Bookings.mk 2 1 1 june1 (at_ 12 0) (Some "reserved") (Some 0) (Some 0) ] 2))
    (mk_date 2025 5 20) 1000 [].

(** The [data] dictionary of [create_booking]. *)
Definition booking_data (user_id table_id : Z) (booking_date : date)
  (booking_time : time) (status : string) (t : Z) : dict :=
  <[ "user_id" := VInt user_id ]>
  (<[ "table_id" := VInt table_id ]>
  (<[ "booking_date" := VDate booking_date ]>
  (<[ "booking_time" := VTime booking_time ]>
  (<[ "status" := VStr status ]>
  (<[ "created_at" := VStamp t ]>
  (<[ "updated_at" := VStamp t ]> ∅)))))).

(** The row [create_booking] asks the store to add. *)
Definition new_booking (d : Database) (user_id table_id : Z)
  (booking_date : date) (booking_time : time) (status : string) (t : Z)
  : Bookings.row :=
  Bookings.mk (last_id (bookings d) + 1) user_id table_id booking_date
    booking_time (Some status) (Some t) (Some t).

(** Statements that only read. *)
Definition is_read (c : db_call) : Prop :=
  match c with
  | SqlSelect _ _ _ | SqlRaw _ _ => True
  | SqlInsert _ _ | SqlUpdate _ _ _ | SqlDelete _ _ => False
  end.

(** What the form handler has sent when it reaches its availability check. *)
Definition status_probe (table_id : Z) : list db_call :=
  if table_id =? 0 then [] else [select_table table_id].

Definition availability_probe (d : Database) (table_id : Z) (booking_date : date)
  : list db_call :=
  select_table table_id ::
  match find_table d table_id with
  | Some table =>
      if bool_decide (Tables.status table = Some "unavailable") then []
      else [select_active table_id booking_date]
  | None => []
  end.

(** ** Deleting a booking *)
Definition select_booking (booking_id : Z) : db_call :=
  SqlSelect "bookings" {[ "id" := VInt booking_id ]} (Some 1).

Definition delete_call (table_name : string) (key : Z) : db_call :=
  SqlDelete table_name {[ "id" := VInt key ]}.

(** The row a soft delete writes over [u]. *)
Definition deactivated (t : Z) (u : Users.row) : Users.row :=
  Users.mk (Users.id u) (Users.name u) (Users.email u) (Users.phone u)
    (Users.password_hash u) (Users.role u) (Users.created_at u) (Some t)
    (Some false).

Definition deactivate_call (user_id t : Z) : db_call :=
  SqlUpdate "users"
    (<[ "is_active" := VBool false ]> {[ "updated_at" := VStamp t ]})
    {[ "id" := VInt user_id ]}.

(** ** Tables: creation, lookup by number, update *)
Definition table_data (table_number seats : Z) (status : string) : dict :=
  <[ "table_number" := VInt table_number ]>
  (<[ "seats" := VInt seats ]>
  (<[ "status" := VStr status ]> ∅)).

Definition new_table (d : Database) (table_number seats : Z) (status : string)
  : Tables.row :=
  Tables.mk (last_id (tables d) + 1) table_number seats (Some status).

Definition with_number (table_number : Z) (l : list Tables.row)
  : list Tables.row :=
  filter (λ r, Tables.table_number r = table_number) l.

Definition select_number (table_number : Z) : db_call :=
  SqlSelect "tables" {[ "table_number" := VInt table_number ]} (Some 1).

(** The row [set_status] writes over [r]. *)
Definition with_status (s : string) (r : Tables.row) : Tables.row :=
  Tables.mk (Tables.id r) (Tables.table_number r) (Tables.seats r) (Some s).

Definition mark_where (table_id : Z) (s : string) (l : list Tables.row)
  : list Tables.row :=
  (λ r, if decide (Tables.id r = table_id) then with_status s r else r) <$> l.

(** Keys come from the identity sequence. *)
Definition keys_issued (r : Rel Bookings.row) : Prop :=
  ∀ b, b ∈ rows r → Bookings.id b ≤ last_id r.

(** ** The conflict window as an invariant of the form *)
(** Any two active bookings of one table on one date are an hour apart. *)
Definition spaced (l : list Bookings.row) : Prop :=
  ∀ (i j : nat) (b1 b2 : Bookings.row),
    i ≠ j → l !! i = Some b1 → l !! j = Some b2 →
    is_active b1 → is_active b2 →
    Bookings.table_id b1 = Bookings.table_id b2 →
    Bookings.booking_date b1 = Bookings.booking_date b2 →
    one_hour ≤ time_diff (Bookings.booking_time b1) (Bookings.booking_time b2).

Definition busy_reversed : World :=
  mk_world
    (mk_db (users demo_db) (tables demo_db)
       (mk_rel (reverse (rows (bookings (db busy)))) 2))
    (mk_date 2025 5 20) 1000 [].

Definition keys (d : Database) : list Z * list Z * list Z :=
  (Users.id <$> rows (users d), Tables.id <$> rows (tables d),
   Bookings.id <$> rows (bookings d)).

(** The row an [update_user] without fields writes over [u]. *)
Definition touched (t : Z) (u : Users.row) : Users.row :=
  Users.mk (Users.id u) (Users.name u) (Users.email u) (Users.phone u)
    (Users.password_hash u) (Users.role u) (Users.created_at u) (Some t)
    (Users.is_active u).

Definition touch_call (user_id t : Z) : db_call :=
  SqlUpdate "users" {[ "updated_at" := VStamp t ]} {[ "id" := VInt user_id ]}.

(** ** Procedures that only read *)

Definition reads_only {A} (m : M A) : Prop :=
  ∀ w, db (snd (m w)) = db w
       ∧ ∃ reads, log (snd (m w)) = log w ++ reads ∧ Forall is_read reads.

(** ** Column types of the schema *)

Inductive sql_type :=
| SqlInteger
| SqlText
| SqlBoolean
| SqlDate
| SqlTime
| SqlTimestamp.

#[global] Instance sql_type_eq_dec : EqDecision sql_type.
Proof. solve_decision. Defined.

Definition schema_columns (table_name : string) : gmap string sql_type :=
  if decide (table_name = "users") then
    list_to_map
      [ ("id", SqlInteger); ("name", SqlText); ("email", SqlText);
        ("phone", SqlText); ("password_hash", SqlText); ("role", SqlText);
        ("created_at", SqlTimestamp); ("updated_at", SqlTimestamp);
        ("is_active", SqlBoolean) ]
  else if decide (table_name = "tables") then
    list_to_map
      [ ("id", SqlInteger); ("table_number", SqlInteger);
        ("seats", SqlInteger); ("status", SqlText) ]
  else if decide (table_name = "bookings") then
    list_to_map
      [ ("id", SqlInteger); ("user_id", SqlInteger); ("table_id", SqlInteger);
        ("booking_date", SqlDate); ("booking_time", SqlTime);
        ("status", SqlText); ("created_at", SqlTimestamp);
        ("updated_at", SqlTimestamp) ]
  else ∅.

(** The SQL type psycopg2 gives a Python value; [None] is NULL. *)
Definition value_type (v : value) : option sql_type :=
  match v with
  | VNull => None
  | VInt _ => Some SqlInteger
  | VStr _ => Some SqlText
  | VBool _ => Some SqlBoolean
  | VDate _ => Some SqlDate
  | VTime _ => Some SqlTime
  | VStamp _ => Some SqlTimestamp
  end.

(** A filter whose values have the types of the columns they are compared
    with, so that the store compares without converting either side. *)
Definition typed_filter (table_name : string) (w : dict) : Prop :=
  map_Forall
    (λ k v, value_type v = None
            ∨ schema_columns table_name !! k = None
            ∨ schema_columns table_name !! k = value_type v) w.

#[global] Instance typed_filter_dec t w : Decision (typed_filter t w).
Proof. unfold typed_filter. apply _. Defined.


(** * Properties *)

(** ** The store answers by key *)
Lemma tables_matches_id (table_id : Z) (r : Tables.row) :
  matches {[ "id" := VInt table_id ]} r ↔ Tables.id r = table_id.
Proof.
  unfold matches. rewrite map_Forall_singleton.
  change (rel_to_dict r !! "id") with (Some (VInt (Tables.id r))).
  split; [intros [_ E]; congruence | intros ->; by split].
Qed.

Lemma bookings_matches_id (booking_id : Z) (b : Bookings.row) :
  matches {[ "id" := VInt booking_id ]} b ↔ Bookings.id b = booking_id.
Proof.
  unfold matches. rewrite map_Forall_singleton.
  change (rel_to_dict b !! "id") with (Some (VInt (Bookings.id b))).
  split; [intros [_ E]; congruence | intros ->; by split].
Qed.

Lemma head_take_1 {A} (l : list A) : head (take 1 l) = head l.
Proof. by destruct l. Qed.

Lemma get_table_by_id_run (table_id : Z) (w : World) :
  TableModel.get_table_by_id table_id w
  = (find_table (db w) table_id, sent w [select_table table_id]).
Proof.
  unfold TableModel.get_table_by_id, PostgreSQLDriver.select_one,
    PostgreSQLDriver.select, bind, execute, ret, sql_select, find_table, sent.
  simpl. rewrite head_take_1. f_equal. f_equal.
  apply list_filter_iff. intros r. apply tables_matches_id.
Qed.

Lemma find_table_None (d : Database) (table_id : Z) :
  find_table d table_id = None
  ↔ ∀ r, r ∈ rows (tables d) → Tables.id r ≠ table_id.
Proof.
  unfold find_table. rewrite head_None. split.
  - intros E r Hr Hid. by apply (filter_nil_not_elem_of _ _ r E Hid).
  - intros Hall. induction (rows (tables d)) as [|r l IH]; [done|].
    rewrite filter_cons. destruct (decide (Tables.id r = table_id)) as [E|_].
    + exfalso. eapply Hall; [left|done].
    + apply IH. intros r' Hr'. apply Hall. by right.
Qed.

Lemma find_table_Some (d : Database) (table_id : Z) (r : Tables.row) :
  find_table d table_id = Some r → r ∈ rows (tables d) ∧ Tables.id r = table_id.
Proof.
  unfold find_table. intros E. apply head_Some_elem_of in E.
  apply list_elem_of_filter in E. tauto.
Qed.

(** ** The availability loop *)
Lemma no_conflict_true (t : time) (l : list Bookings.row) :
  BookingModel.no_conflict t l = true
  ↔ ∀ b, b ∈ l → one_hour ≤ time_diff t (Bookings.booking_time b).
Proof.
  induction l as [|b l IH]; simpl.
  - split; [intros _ b Hb; by apply elem_of_nil in Hb | done].
  - destruct (Z.ltb_spec (time_diff t (Bookings.booking_time b)) one_hour) as [Hlt|Hge].
    + split; [done|]. intros Hall. specialize (Hall b (list_elem_of_here _ _)). lia.
    + rewrite IH. split.
      * intros Hall b' Hb'. apply elem_of_cons in Hb' as [->|Hb']; auto.
      * intros Hall b' Hb'. apply Hall. by right.
Qed.

Lemma no_conflict_false (t : time) (l : list Bookings.row) :
  BookingModel.no_conflict t l = false
  ↔ ∃ b, b ∈ l ∧ time_diff t (Bookings.booking_time b) < one_hour.
Proof.
  induction l as [|b l IH]; simpl.
  - split; [done|]. intros (b & Hb & _). by apply elem_of_nil in Hb.
  - destruct (Z.ltb_spec (time_diff t (Bookings.booking_time b)) one_hour) as [Hlt|Hge].
    + split; [|done]. intros _. exists b. split; [left|done].
    + rewrite IH. split.
      * intros (b' & Hb' & Hlt). exists b'. split; [by right|done].
      * intros (b' & Hb' & Hlt). apply elem_of_cons in Hb' as [->|Hb']; [lia|eauto].
Qed.

Lemma check_table_availability_run (table_id : Z) (booking_date : date)
  (booking_time : time) (w : World) :
  BookingModel.check_table_availability table_id booking_date booking_time w
  = (verdict (db w) table_id booking_date booking_time,
     sent w (select_table table_id ::
             match find_table (db w) table_id with
             | Some table =>
                 if bool_decide (Tables.status table = Some "unavailable")
                 then []
                 else [select_active table_id booking_date]
             | None => []
             end)).
Proof.
  unfold BookingModel.check_table_availability, bind, verdict.
  rewrite get_table_by_id_run.
  destruct (find_table (db w) table_id) as [table|]; [|done].
  destruct (bool_decide (Tables.status table = Some "unavailable")); [done|].
  unfold PostgreSQLDriver.execute_raw, bind, execute, ret, sent. simpl.
  by rewrite <- app_assoc.
Qed.

(** C3.  For every date and time, [check_table_availability] answers
    [False] when no table has the key and when the table with the key is
    ['unavailable'], whatever bookings the store holds.  The only statement
    sent is the lookup of the table: the gate is decided before any booking
    is read. *)
Theorem absent_or_unavailable_table_rejected (w : World) (table_id : Z)
  (booking_date : date) (booking_time : time) :
  (find_table (db w) table_id = None
   ∨ ∃ table, find_table (db w) table_id = Some table
              ∧ Tables.status table = Some "unavailable") →
  BookingModel.check_table_availability table_id booking_date booking_time w
  = (false, sent w [select_table table_id]).
Proof.
  intros H. rewrite check_table_availability_run. unfold verdict.
  destruct H as [-> | (table & -> & ->)]; done.
Qed.

Lemma absent_or_unavailable_table_rejected_witness :
  BookingModel.check_table_availability 99 june1 (at_ 12 0) demo
  = (false, sent demo [select_table 99])
  ∧ BookingModel.check_table_availability 2 june2 (at_ 12 0) demo
    = (false, sent demo [select_table 2]).
Proof.
  split.
  - apply absent_or_unavailable_table_rejected. left. reflexivity.
  - apply absent_or_unavailable_table_rejected. right.
    exists (Tables.mk 2 8 2 (Some "unavailable")). split; reflexivity.
Defined.

(** C4.  For an existing available table, a candidate (an active booking of
    the table on the requested date) whose time of day is less than 3600
    seconds from the requested time makes the answer [False]; when every
    candidate is 3600 seconds or more away the answer is [True]; with no
    candidate at all it is [True]. *)
Theorem one_hour_buffer (w : World) (table_id : Z) (booking_date : date)
  (booking_time : time) (table : Tables.row) :
  find_table (db w) table_id = Some table →
  Tables.status table = Some "available" →
  let answer :=
    fst (BookingModel.check_table_availability table_id booking_date
           booking_time w) in
  (∀ b, b ∈ rows (bookings (db w)) → candidate table_id booking_date b →
        time_diff booking_time (Bookings.booking_time b) < one_hour →
        answer = false)
  ∧ ((∀ b, b ∈ rows (bookings (db w)) → candidate table_id booking_date b →
           one_hour ≤ time_diff booking_time (Bookings.booking_time b)) →
     answer = true)
  ∧ (filter (candidate table_id booking_date) (rows (bookings (db w))) = [] →
     answer = true).
Proof.
  intros Hfind Hst answer. subst answer.
  rewrite check_table_availability_run. unfold verdict. rewrite Hfind, Hst. simpl.
  split; [|split].
  - intros b Hb Hc Hlt. apply no_conflict_false. exists b.
    split; [|done]. by apply list_elem_of_filter.
  - intros Hall. apply no_conflict_true. intros b Hb.
    apply list_elem_of_filter in Hb as [Hc Hb]. by apply Hall.
  - by intros ->.
Qed.

Lemma one_hour_buffer_witness :
  fst (BookingModel.check_table_availability 1 june1 (at_ 19 30) demo) = false
  ∧ fst (BookingModel.check_table_availability 1 june1 (mk_time 19 59 59 0) demo) = false
  ∧ fst (BookingModel.check_table_availability 1 june1 (mk_time 18 0 1 0) demo) = false
  ∧ fst (BookingModel.check_table_availability 1 june1 (at_ 20 0) demo) = true
  ∧ fst (BookingModel.check_table_availability 1 june1 (at_ 18 0) demo) = true
  ∧ fst (BookingModel.check_table_availability 1 june2 (at_ 19 0) demo) = true.
Proof.
  pose (table := Tables.mk 1 7 4 (Some "available")).
  pose (b := Bookings.mk 1 1 1 june1 (at_ 19 0) (Some "reserved") (Some 0) (Some 0)).
  assert (Hin : b ∈ rows (bookings (db demo))) by (simpl; left).
  assert (Hc : candidate 1 june1 b) by (repeat split; by left).
  assert (Hfar : ∀ t, one_hour ≤ time_diff t (at_ 19 0) →
            ∀ x, x ∈ rows (bookings (db demo)) → candidate 1 june1 x →
                 one_hour ≤ time_diff t (Bookings.booking_time x)).
  { intros t Ht x Hx (_ & _ & Hact). simpl in Hx.
    apply elem_of_cons in Hx as [->|Hx]; [exact Ht|].
    apply elem_of_cons in Hx as [->|Hx]; [|by apply elem_of_nil in Hx].
    destruct Hact as [Hact|Hact]; discriminate Hact. }
  refine (conj _ (conj _ (conj _ (conj _ (conj _ _))))).
  - refine (proj1 (one_hour_buffer demo 1 june1 (at_ 19 30) table eq_refl eq_refl) b Hin Hc _).
    vm_compute. reflexivity.
  - refine (proj1 (one_hour_buffer demo 1 june1 (mk_time 19 59 59 0) table eq_refl eq_refl) b Hin Hc _).
    vm_compute. reflexivity.
  - refine (proj1 (one_hour_buffer demo 1 june1 (mk_time 18 0 1 0) table eq_refl eq_refl) b Hin Hc _).
    vm_compute. reflexivity.
  - refine (proj1 (proj2 (one_hour_buffer demo 1 june1 (at_ 20 0) table eq_refl eq_refl)) _).
    apply Hfar. vm_compute. discriminate.
  - refine (proj1 (proj2 (one_hour_buffer demo 1 june1 (at_ 18 0) table eq_refl eq_refl)) _).
    apply Hfar. vm_compute. discriminate.
  - refine (proj2 (proj2 (one_hour_buffer demo 1 june2 (at_ 19 0) table eq_refl eq_refl)) _).
    reflexivity.
Defined.

Lemma candidate_not_cancelled (table_id : Z) (booking_date : date)
  (l : list Bookings.row) :
  filter (candidate table_id booking_date) (filter not_cancelled l)
  = filter (candidate table_id booking_date) l.
Proof.
  rewrite list_filter_filter. apply list_filter_iff. intros b. split.
  - tauto.
  - intros Hc. split; [done|]. destruct Hc as (_ & _ & [E|E]);
      unfold not_cancelled; rewrite E; discriminate.
Qed.

(** C5.  Two stores with the same tables whose bookings differ only in
    cancelled rows give the same answer for every table, date and time; the
    bookings the check scans are exactly those of the table on the requested
    date whose status is ['reserved'] or ['pending']. *)
Theorem cancelled_bookings_invisible (w1 w2 : World) (table_id : Z)
  (booking_date : date) (booking_time : time) :
  tables (db w1) = tables (db w2) →
  filter not_cancelled (rows (bookings (db w1)))
  = filter not_cancelled (rows (bookings (db w2))) →
  fst (BookingModel.check_table_availability table_id booking_date booking_time w1)
  = fst (BookingModel.check_table_availability table_id booking_date booking_time w2)
  ∧ ∀ b, b ∈ fst (PostgreSQLDriver.execute_raw SelectActiveBookings
                     [VInt table_id; VDate booking_date] w1)
         ↔ b ∈ rows (bookings (db w1))
           ∧ Bookings.table_id b = table_id
           ∧ Bookings.booking_date b = booking_date
           ∧ (Bookings.status b = Some "reserved"
              ∨ Bookings.status b = Some "pending").
Proof.
  intros Ht Hb. split.
  - rewrite !check_table_availability_run. simpl. unfold verdict, find_table.
    rewrite <- (candidate_not_cancelled _ _ (rows (bookings (db w1)))).
    rewrite <- (candidate_not_cancelled _ _ (rows (bookings (db w2)))).
    by rewrite Ht, Hb.
  - intros b. unfold PostgreSQLDriver.execute_raw, bind, execute, ret. simpl.
    rewrite list_elem_of_filter. unfold candidate, is_active. tauto.
Qed.

Lemma cancelled_bookings_invisible_witness :
  fst (BookingModel.check_table_availability 1 june1 (at_ 21 0) demo)
  = fst (BookingModel.check_table_availability 1 june1 (at_ 21 0) demo_purged)
  ∧ fst (BookingModel.check_table_availability 1 june1 (at_ 21 0) demo) = true.
Proof.
  split.
  - refine (proj1 (cancelled_bookings_invisible demo demo_purged 1 june1 (at_ 21 0) _ _));
      reflexivity.
  - reflexivity.
Defined.

(** C6.  With a booking date before today, [create_booking] returns [None]
    and [update_booking] returns [False]; neither sends a statement, so the
    world (store and log) is left as it was, whatever the other arguments. *)
Theorem past_date_rejected (w : World) (user_id table_id : Z)
  (booking_date : date) (booking_time : time) (status : option string)
  (booking_id : Z) (new_user new_table : option Z) (new_time : option time)
  (new_status : option string) :
  date_ltb booking_date (today w) = true →
  BookingModel.create_booking user_id table_id booking_date booking_time status w
  = (None, w)
  ∧ BookingModel.update_booking booking_id new_user new_table (Some booking_date)
      new_time new_status w
    = (false, w).
Proof.
  intros Hpast. split.
  - unfold BookingModel.create_booking.
    destruct (negb _); [done|].
    unfold bind, get_today. by rewrite Hpast.
  - unfold BookingModel.update_booking, bind, get_now, get_today,
      BookingModel.update_data.
    by rewrite Hpast.
Qed.

Lemma past_date_rejected_witness :
  BookingModel.create_booking 1 1 (mk_date 2025 5 19) (at_ 19 0) (Some "reserved") demo
  = (None, demo)
  ∧ BookingModel.update_booking 1 (Some 1) (Some 1) (Some (mk_date 2024 12 31))
      (Some (at_ 12 0)) (Some "reserved") demo
    = (false, demo).
Proof.
  split.
  - refine (proj1 (past_date_rejected demo 1 1 (mk_date 2025 5 19) (at_ 19 0)
                     (Some "reserved") 0 None None None None _)).
    reflexivity.
  - refine (proj2 (past_date_rejected demo 0 0 (mk_date 2024 12 31) (at_ 0 0) None
                     1 (Some 1) (Some 1) (Some (at_ 12 0)) (Some "reserved") _)).
    reflexivity.
Defined.

(** C10.  [update_booking] with every optional field omitted returns
    [False] and sends nothing: the world is unchanged, [updated_at]
    included. *)
Theorem update_without_fields_fails (w : World) (booking_id : Z) :
  BookingModel.update_booking booking_id None None None None None w = (false, w).
Proof. reflexivity. Qed.

Lemma update_data_Some (t : Z) (today : date) (user_id table_id : option Z)
  (booking_date : option date) (booking_time : option time)
  (status : option string) (data : dict) :
  BookingModel.update_data t today user_id table_id booking_date booking_time
    status = Some data →
  (∀ b, Bookings.assign data b
        = Some (rewrite_booking t user_id table_id booking_date booking_time
                  status b))
  ∧ bool_decide (dom data ⊆ Bookings.columns) = true
  ∧ bool_decide (data = ∅) = false
  ∧ (bool_decide (size data = 1%nat) = true
     ↔ user_id = None ∧ table_id = None ∧ booking_date = None
       ∧ booking_time = None ∧ status = None).
Proof.
  unfold BookingModel.update_data.
  destruct user_id as [u|], table_id as [x|], booking_date as [dd|],
    booking_time as [bt|], status as [s|];
    repeat match goal with
      | |- context [date_ltb ?a ?b] => destruct (date_ltb a b)
      | |- context [bool_decide (?s ∈ ?l)] => destruct (bool_decide (s ∈ l))
      end; simpl;
    intros E; try discriminate E; injection E as <-;
    (split; [intros b; reflexivity|]);
    (split; [vm_compute; reflexivity|]);
    (split; [vm_compute; reflexivity|]);
    (split; [vm_compute; intros E; first [discriminate E | done]
           | intros (?&?&?&?&?); try discriminate; vm_compute; reflexivity]).
Qed.

Lemma mapM_total {A B} (f : A → option B) (g : A → B) (l : list A) :
  (∀ x, f x = Some (g x)) → mapM f l = Some (g <$> l).
Proof.
  intros Hf. induction l as [|x l IH]; [done|].
  simpl. rewrite Hf, IH. done.
Qed.

Lemma sql_update_bookings (data : dict) (booking_id : Z) (d : Database)
  (f : Bookings.row → Bookings.row) :
  (∀ b, Bookings.assign data b = Some (f b)) →
  bool_decide (dom data ⊆ Bookings.columns) = true →
  sql_update_in "bookings" data {[ "id" := VInt booking_id ]} d
  = if forallb (rel_row_ok d) (f <$> with_id booking_id (rows (bookings d)))
    then (Some (Z.of_nat (length (with_id booking_id (rows (bookings d))))),
          with_bookings d (rewrite_where booking_id f (rows (bookings d))))
    else (None, d).
Proof.
  intros Hf Hdom.
  change (sql_update_in "bookings" data {[ "id" := VInt booking_id ]} d)
    with (sql_update (R:=Bookings.row) data {[ "id" := VInt booking_id ]} d).
  unfold sql_update.
  change (rel_columns Bookings.row) with Bookings.columns. rewrite Hdom.
  change (rel_get d) with (bookings d).
  assert (Hhit : filter (matches {[ "id" := VInt booking_id ]}) (rows (bookings d))
                 = with_id booking_id (rows (bookings d))).
  { apply list_filter_iff. intros b. apply bookings_matches_id. }
  rewrite Hhit.
  rewrite (mapM_total _ (λ b, if decide (Bookings.id b = booking_id) then f b else b)).
  2:{ intros b. destruct (decide (matches _ b)) as [Hm|Hm];
        destruct (decide (Bookings.id b = booking_id)) as [Hi|Hi];
        rewrite bookings_matches_id in Hm; first [done | apply Hf]. }
  rewrite (mapM_total _ f) by exact Hf.
  reflexivity.
Qed.

Lemma update_booking_run (w : World) (booking_id : Z)
  (user_id table_id : option Z) (booking_date : option date)
  (booking_time : option time) (status : option string) (data : dict) :
  BookingModel.update_data (now w) (today w) user_id table_id booking_date
    booking_time status = Some data →
  ¬ (user_id = None ∧ table_id = None ∧ booking_date = None
     ∧ booking_time = None ∧ status = None) →
  let f := rewrite_booking (now w) user_id table_id booking_date booking_time
             status in
  let hit := with_id booking_id (rows (bookings (db w))) in
  BookingModel.update_booking booking_id user_id table_id booking_date
    booking_time status w
  = if forallb (rel_row_ok (db w)) (f <$> hit)
    then (0 <? Z.of_nat (length hit),
          mk_world (with_bookings (db w)
                      (rewrite_where booking_id f (rows (bookings (db w)))))
            (today w) (now w) (log w ++ [update_call booking_id data]))
    else (false, sent w [update_call booking_id data]).
Proof.
  intros Hdata Hsome f hit.
  destruct (update_data_Some _ _ _ _ _ _ _ _ Hdata) as (Hassign & Hdom & Hne & Hone).
  unfold BookingModel.update_booking, bind, get_now, get_today.
  rewrite Hdata, Hne.
  destruct (bool_decide (size data = 1%nat)) eqn:Hsz.
  { exfalso. apply Hsome. by apply Hone. }
  unfold PostgreSQLDriver.update. rewrite Hne.
  change (bool_decide (({[ "id" := VInt booking_id ]} : dict) = ∅)) with false.
  change BookingModel.table_name with "bookings".
  cbn [orb]. unfold bind, execute, ret. cbv beta iota.
  rewrite (sql_update_bookings data booking_id (db w) f Hassign Hdom).
  fold hit. destruct (forallb _ _); reflexivity.
Qed.

Lemma update_data_accepts (t : Z) (today : date) (user_id table_id : option Z)
  (booking_date : option date) (booking_time : option time)
  (status : option string) :
  (∀ dd, booking_date = Some dd → date_ltb dd today = false) →
  (∀ s, status = Some s → s ∈ BookingModel.valid_statuses) →
  is_Some (BookingModel.update_data t today user_id table_id booking_date
             booking_time status).
Proof.
  intros Hd Hs. unfold BookingModel.update_data.
  destruct booking_date as [dd|]; [rewrite (Hd dd eq_refl)|];
    (destruct status as [s|];
     [rewrite (bool_decide_eq_true_2 _ (Hs s eq_refl))|]); simpl; eauto.
Qed.

Lemma with_id_nonempty (booking_id : Z) (l : list Bookings.row) (b : Bookings.row) :
  b ∈ l → Bookings.id b = booking_id → (0 <? Z.of_nat (length (with_id booking_id l))) = true.
Proof.
  intros Hb Hid.
  assert (Hin : b ∈ with_id booking_id l) by (by apply list_elem_of_filter).
  destruct (with_id booking_id l); [by apply elem_of_nil in Hin|]. done.
Qed.

(** C7.  For an existing booking, [update_booking] with a new table, date or
    time that passes its own checks (date not in the past, status in the enum)
    and the constraints of the schema writes the new values and returns
    [True].  The only statement it sends is the UPDATE: the availability
    check, which always starts by selecting the table, is not run, whatever
    the other bookings of that table and date are. *)
Theorem reschedule_skips_availability (w : World) (booking_id : Z)
  (user_id table_id : option Z) (booking_date : option date)
  (booking_time : option time) (status : option string) :
  let f := rewrite_booking (now w) user_id table_id booking_date booking_time
             status in
  (∃ b, b ∈ rows (bookings (db w)) ∧ Bookings.id b = booking_id) →
  is_Some table_id ∨ is_Some booking_date ∨ is_Some booking_time →
  (∀ dd, booking_date = Some dd → date_ltb dd (today w) = false) →
  (∀ s, status = Some s → s ∈ BookingModel.valid_statuses) →
  (∀ b, b ∈ rows (bookings (db w)) → Bookings.id b = booking_id →
        rel_row_ok (db w) (f b) = true) →
  ∃ data,
    BookingModel.update_booking booking_id user_id table_id booking_date
      booking_time status w
    = (true,
       mk_world (with_bookings (db w)
                   (rewrite_where booking_id f (rows (bookings (db w)))))
         (today w) (now w) (log w ++ [update_call booking_id data])).
Proof.
  intros f (b & Hb & Hid) Hfield Hdate Hstatus Hok.
  destruct (update_data_accepts (now w) (today w) user_id table_id booking_date
              booking_time status Hdate Hstatus) as [data Hdata].
  exists data. rewrite (update_booking_run w booking_id _ _ _ _ _ data Hdata).
  2:{ intros (_ & -> & -> & -> & _).
      destruct Hfield as [[? E]|[[? E]|[? E]]]; discriminate E. }
  fold f.
  assert (Hall : forallb (rel_row_ok (db w))
                   (f <$> with_id booking_id (rows (bookings (db w)))) = true).
  { apply Is_true_true, forallb_True, Forall_forall. intros x Hx.
    apply list_elem_of_fmap in Hx as (y & -> & Hy).
    apply list_elem_of_filter in Hy as [Hy1 Hy2].
    apply Is_true_true. by apply Hok. }
  rewrite Hall. by rewrite (with_id_nonempty booking_id _ b Hb Hid).
Qed.

Lemma reschedule_skips_availability_witness :
  fst (BookingModel.check_table_availability 1 june1 (at_ 19 30) busy) = false
  ∧ ∃ data,
      BookingModel.update_booking 2 None None None (Some (at_ 19 30)) None busy
      = (true,
         mk_world
           (mk_db (users demo_db) (tables demo_db)
              (mk_rel [ Bookings.mk 1 1 1 june1 (at_ 19 0) (Some "reserved") (Some 0) (Some 0);
                        Bookings.mk 2 1 1 june1 (at_ 19 30) (Some "reserved") (Some 0) (Some 1000) ] 2))
           (mk_date 2025 5 20) 1000 [update_call 2 data]).
Proof.
  split; [reflexivity|].
  refine (reschedule_skips_availability busy 2 None None None (Some (at_ 19 30))
            None _ _ _ _ _).
  - exists (Bookings.mk 2 1 1 june1 (at_ 12 0) (Some "reserved") (Some 0) (Some 0)).
    split; [right; left | reflexivity].
  - right; right. by eexists.
  - intros dd E; discriminate E.
  - intros s E; discriminate E.
  - intros b Hb Hid. simpl in Hb.
    apply elem_of_cons in Hb as [->|Hb]; [discriminate Hid|].
    apply elem_of_cons in Hb as [->|Hb]; [reflexivity|by apply elem_of_nil in Hb].
Defined.

Lemma update_booking_nothing (w : World) (booking_id : Z) :
  BookingModel.update_booking booking_id None None None None None w = (false, w).
Proof. reflexivity. Qed.

(** C8.  When [update_booking] returns [True], the bookings are the former
    ones with the rows of that key rewritten: a supplied field takes the
    supplied value, every omitted field among [user_id], [table_id],
    [booking_date], [booking_time] and [status] keeps its value, as do [id]
    and [created_at]; other rows, users and tables are untouched. *)
Theorem partial_update_keeps_omitted (w w' : World) (booking_id : Z)
  (user_id table_id : option Z) (booking_date : option date)
  (booking_time : option time) (status : option string) :
  BookingModel.update_booking booking_id user_id table_id booking_date
    booking_time status w = (true, w') →
  let f := rewrite_booking (now w) user_id table_id booking_date booking_time
             status in
  rows (bookings (db w')) = rewrite_where booking_id f (rows (bookings (db w)))
  ∧ users (db w') = users (db w)
  ∧ tables (db w') = tables (db w)
  ∧ ∀ b,
      Bookings.id (f b) = Bookings.id b
      ∧ Bookings.created_at (f b) = Bookings.created_at b
      ∧ (user_id = None → Bookings.user_id (f b) = Bookings.user_id b)
      ∧ (table_id = None → Bookings.table_id (f b) = Bookings.table_id b)
      ∧ (booking_date = None →
         Bookings.booking_date (f b) = Bookings.booking_date b)
      ∧ (booking_time = None →
         Bookings.booking_time (f b) = Bookings.booking_time b)
      ∧ (status = None → Bookings.status (f b) = Bookings.status b)
      ∧ (∀ x, user_id = Some x → Bookings.user_id (f b) = x)
      ∧ (∀ x, table_id = Some x → Bookings.table_id (f b) = x)
      ∧ (∀ x, booking_date = Some x → Bookings.booking_date (f b) = x)
      ∧ (∀ x, booking_time = Some x → Bookings.booking_time (f b) = x)
      ∧ (∀ x, status = Some x → Bookings.status (f b) = Some x).
Proof.
  intros Hrun f.
  assert (Hdb : db w' = with_bookings (db w)
                          (rewrite_where booking_id f (rows (bookings (db w))))).
  { destruct (BookingModel.update_data (now w) (today w) user_id table_id
                booking_date booking_time status) as [data|] eqn:Hdata.
    - destruct (decide (user_id = None ∧ table_id = None ∧ booking_date = None
                        ∧ booking_time = None ∧ status = None)) as [Hall|Hsome].
      + destruct Hall as (-> & -> & -> & -> & ->).
        rewrite update_booking_nothing in Hrun. discriminate Hrun.
      + rewrite (update_booking_run w booking_id _ _ _ _ _ data Hdata Hsome) in Hrun.
        fold f in Hrun. destruct (forallb _ _); [|discriminate Hrun].
        injection Hrun as _ <-. reflexivity.
    - unfold BookingModel.update_booking, bind, get_now, get_today in Hrun.
      rewrite Hdata in Hrun. discriminate Hrun. }
  rewrite Hdb. split; [reflexivity|]. split; [reflexivity|]. split; [reflexivity|].
  intros b. unfold f, rewrite_booking. simpl.
  repeat (split; [first [reflexivity | by intros -> | by intros x ->]|]).
  by intros x ->.
Qed.

Lemma partial_update_keeps_omitted_witness :
  rows (bookings (db (snd (BookingModel.update_booking 1 None None None
                             (Some (at_ 20 0)) None demo))))
  = [ Bookings.mk 1 1 1 june1 (at_ 20 0) (Some "reserved") (Some 0) (Some 1000);
      Bookings.mk 2 1 1 june1 (at_ 21 0) (Some "cancelled") (Some 0) (Some 0) ].
Proof.
  assert (H : BookingModel.update_booking 1 None None None (Some (at_ 20 0)) None demo
              = (true, snd (BookingModel.update_booking 1 None None None
                              (Some (at_ 20 0)) None demo)))
    by (vm_compute; reflexivity).
  exact (proj1 (partial_update_keeps_omitted demo _ 1 None None None
                  (Some (at_ 20 0)) None H)).
Defined.

Lemma filter_fmap {A B} (f : A → B) (P : B → Prop) `{!∀ x, Decision (P x)}
  (l : list A) :
  filter P (f <$> l) = f <$> filter (λ x, P (f x)) l.
Proof.
  induction l as [|x l IH]; [done|].
  rewrite fmap_cons, !filter_cons.
  destruct (decide (P (f x))); by rewrite IH.
Qed.

Lemma filter_fmap_length {A B} (f : A → B) (P : B → Prop)
  `{!∀ x, Decision (P x)} (l : list A) :
  length (filter P (f <$> l)) = length (filter (λ x, P (f x)) l).
Proof. by rewrite filter_fmap, length_fmap. Qed.




Lemma create_booking_run (w : World) (user_id table_id : Z)
  (booking_date : date) (booking_time : time) (status : option string) :
  let s := default "pending" status in
  let b := new_booking (db w) user_id table_id booking_date booking_time s (now w) in
  let call := SqlInsert "bookings"
                (booking_data user_id table_id booking_date booking_time s (now w)) in
  BookingModel.create_booking user_id table_id booking_date booking_time status w
  = if negb (bool_decide (s ∈ BookingModel.valid_statuses)) then (None, w)
    else if date_ltb booking_date (today w) then (None, w)
    else if rel_row_ok (db w) b
    then (Some (Bookings.id b),
          mk_world (mk_db (users (db w)) (tables (db w))
                      (mk_rel (rows (bookings (db w)) ++ [b]) (Bookings.id b)))
            (today w) (now w) (log w ++ [call]))
    else (None,
          mk_world (mk_db (users (db w)) (tables (db w))
                      (mk_rel (rows (bookings (db w))) (Bookings.id b)))
            (today w) (now w) (log w ++ [call])).
Proof.
  intros s b call. unfold BookingModel.create_booking. fold s.
  destruct (negb _); [reflexivity|].
  unfold bind, get_today, get_now.
  destruct (date_ltb _ _); [reflexivity|].
  unfold PostgreSQLDriver.insert, bind, get_now, execute.
  change BookingModel.table_name with "bookings".
  fold (booking_data user_id table_id booking_date booking_time s (now w)).
  change (bool_decide (booking_data user_id table_id booking_date booking_time s (now w) = ∅))
    with false. cbv beta iota.
  change (sql_insert_into "bookings" (now w)
            (booking_data user_id table_id booking_date booking_time s (now w)) (db w))
    with (if rel_row_ok
               (mk_db (users (db w)) (tables (db w))
                  (mk_rel (rows (bookings (db w)) ++ [b]) (Bookings.id b))) b
          then (Some (Bookings.id b),
                mk_db (users (db w)) (tables (db w))
                  (mk_rel (rows (bookings (db w)) ++ [b]) (Bookings.id b)))
          else (None,
                mk_db (users (db w)) (tables (db w))
                  (mk_rel (rows (bookings (db w))) (Bookings.id b)))).
  change (rel_row_ok (mk_db (users (db w)) (tables (db w))
            (mk_rel (rows (bookings (db w)) ++ [b]) (Bookings.id b))) b)
    with (rel_row_ok (db w) b).
  destruct (rel_row_ok (db w) b); reflexivity.
Qed.

Lemma get_table_run (table_id : Z) (w : World) :
  backend.get_table (Some table_id) None w
  = if table_id =? 0 then (None, w)
    else (find_table (db w) table_id, sent w [select_table table_id]).
Proof.
  unfold backend.get_table. destruct (table_id =? 0); [reflexivity|].
  apply get_table_by_id_run.
Qed.

Lemma form_create_run (w : World) (user_id table_id : Z) (booking_date : date)
  (booking_time : time) :
  let reads := status_probe table_id
               ++ availability_probe (db w) table_id booking_date in
  BookingsTab.create_booking user_id table_id booking_date booking_time w
  = if verdict (db w) table_id booking_date booking_time
    then
      let '(r, w') :=
        BookingModel.create_booking user_id table_id booking_date booking_time
          (Some "reserved") (sent w reads) in
      (match r with
       | Some n => if n =? 0 then BookingsTab.ErrorNotCreated
                   else BookingsTab.InfoCreated n
       | None => BookingsTab.ErrorNotCreated
       end, w')
    else if (if table_id =? 0 then false
             else match find_table (db w) table_id with
                  | Some table =>
                      bool_decide (Tables.status table = Some "unavailable")
                  | None => false
                  end)
    then (BookingsTab.ErrorTableUnavailable, sent w (status_probe table_id))
    else (BookingsTab.ErrorSlotTaken, sent w reads).
Proof.
  intros reads. subst reads.
  unfold BookingsTab.create_booking, bind. rewrite get_table_run.
  unfold backend.check_table_availability, backend.create_booking,
    status_probe, availability_probe, verdict.
  destruct (table_id =? 0) eqn:Hz.
  - rewrite check_table_availability_run. unfold verdict.
    destruct (find_table (db w) table_id) as [table|]; [|reflexivity].
    destruct (bool_decide (Tables.status table = Some "unavailable")); [reflexivity|].
    destruct (BookingModel.no_conflict _ _); [|reflexivity].
    cbn [negb]. unfold ret.
    destruct (BookingModel.create_booking _ _ _ _ _ _) as [[n|] w']; [|reflexivity].
    destruct (n =? 0); reflexivity.
  - destruct (find_table (db w) table_id) as [table|] eqn:Hf.
    + destruct (bool_decide (Tables.status table = Some "unavailable")) eqn:Hs;
        [reflexivity|].
      rewrite check_table_availability_run. unfold verdict. simpl.
      rewrite Hf, Hs.
      destruct (BookingModel.no_conflict _ _); [|by unfold sent; simpl; rewrite <- app_assoc].
      cbn [negb]. unfold ret, sent. simpl. rewrite <- app_assoc. simpl.
      destruct (BookingModel.create_booking _ _ _ _ _ _) as [[n|] w']; [|reflexivity].
      destruct (n =? 0); reflexivity.
    + rewrite check_table_availability_run. unfold verdict. simpl. rewrite Hf.
      unfold sent. simpl. by rewrite <- app_assoc.
Qed.

Lemma create_booking_Some (w w' : World) (user_id table_id : Z)
  (booking_date : date) (booking_time : time) (status : option string) (n : Z) :
  BookingModel.create_booking user_id table_id booking_date booking_time status w
  = (Some n, w') →
  let b := new_booking (db w) user_id table_id booking_date booking_time
             (default "pending" status) (now w) in
  n = Bookings.id b
  ∧ db w' = mk_db (users (db w)) (tables (db w))
              (mk_rel (rows (bookings (db w)) ++ [b]) (Bookings.id b))
  ∧ log w' = log w ++ [SqlInsert "bookings"
                         (booking_data user_id table_id booking_date booking_time
                            (default "pending" status) (now w))].
Proof.
  rewrite create_booking_run.
  destruct (negb _); [discriminate|].
  destruct (date_ltb _ _); [discriminate|].
  destruct (rel_row_ok _ _); [|discriminate].
  intros E. injection E as <- <-. done.
Qed.

Lemma probes_read (d : Database) (table_id : Z) (booking_date : date) :
  Forall is_read (status_probe table_id
                  ++ availability_probe d table_id booking_date).
Proof.
  unfold status_probe, availability_probe.
  destruct (table_id =? 0); destruct (find_table d table_id) as [table|];
    try destruct (bool_decide _); repeat constructor.
Qed.

(** C1, as stated, fails: with [status] left out, on a slot the
    availability check accepts, the row persisted has status ['pending']. *)
Lemma omitted_status_persists_pending :
  fst (BookingModel.check_table_availability 1 june1 (at_ 12 0) demo) = true
  ∧ ∃ w',
      backend.create_booking 1 1 june1 (at_ 12 0) None demo = (Some 3, w')
      ∧ rows (bookings (db w'))
        = rows (bookings (db demo))
          ++ [ Bookings.mk 3 1 1 june1 (at_ 12 0) (Some "pending")
                 (Some 1000) (Some 1000) ].
Proof.
  split; [vm_compute; reflexivity|].
  eexists. split; vm_compute; reflexivity.
Qed.

(** C1, amended.  A booking [create_booking] persists has the status the
    caller passed, ['pending'] when the caller leaves it out; the form
    handler passes ['reserved'], so the bookings it creates are
    ['reserved']. *)
Theorem created_status_is_the_argument (w : World) (user_id table_id : Z)
  (booking_date : date) (booking_time : time) :
  (∀ status n w',
     BookingModel.create_booking user_id table_id booking_date booking_time
       status w = (Some n, w') →
     ∃ b, rows (bookings (db w')) = rows (bookings (db w)) ++ [b]
          ∧ Bookings.id b = n
          ∧ Bookings.status b = Some (default "pending" status))
  ∧ (∀ n w',
       BookingsTab.create_booking user_id table_id booking_date booking_time w
       = (BookingsTab.InfoCreated n, w') →
       ∃ b, rows (bookings (db w')) = rows (bookings (db w)) ++ [b]
            ∧ Bookings.id b = n
            ∧ Bookings.status b = Some "reserved").
Proof.
  split.
  - intros status n w' Hrun.
    destruct (create_booking_Some _ _ _ _ _ _ _ _ Hrun) as (-> & -> & _).
    eexists. split; [reflexivity|]. split; reflexivity.
  - intros n w' Hrun. rewrite form_create_run in Hrun.
    destruct (verdict _ _ _ _).
    + destruct (BookingModel.create_booking _ _ _ _ _ _) as [[m|] w2] eqn:Hc;
        [|discriminate Hrun].
      destruct (m =? 0); [discriminate Hrun|]. injection Hrun as -> ->.
      destruct (create_booking_Some _ _ _ _ _ _ _ _ Hc) as (-> & -> & _).
      eexists. split; [reflexivity|]. split; reflexivity.
    + destruct (if table_id =? 0 then _ else _); discriminate Hrun.
Qed.

Lemma created_status_is_the_argument_witness :
  (∃ b, rows (bookings (db (snd (BookingModel.create_booking 1 1 june1 (at_ 12 0)
                                   None demo))))
        = rows (bookings (db demo)) ++ [b]
        ∧ Bookings.id b = 3 ∧ Bookings.status b = Some "pending")
  ∧ (∃ b, rows (bookings (db (snd (BookingsTab.create_booking 1 1 june1 (at_ 12 0)
                                     demo))))
          = rows (bookings (db demo)) ++ [b]
          ∧ Bookings.id b = 3 ∧ Bookings.status b = Some "reserved").
Proof.
  split.
  - refine (proj1 (created_status_is_the_argument demo 1 1 june1 (at_ 12 0))
              None 3 _ _).
    vm_compute. reflexivity.
  - refine (proj2 (created_status_is_the_argument demo 1 1 june1 (at_ 12 0))
              3 _ _).
    vm_compute. reflexivity.
Defined.

(** C2, as stated, fails: [create_booking] inserts on a slot the
    availability check rejects, and the INSERT is the only statement it
    sends. *)
Lemma create_booking_ignores_verdict :
  fst (BookingModel.check_table_availability 1 june1 (at_ 19 30) demo) = false
  ∧ ∃ w',
      BookingModel.create_booking 1 1 june1 (at_ 19 30) (Some "reserved") demo
      = (Some 3, w')
      ∧ rows (bookings (db w'))
        = rows (bookings (db demo))
          ++ [ Bookings.mk 3 1 1 june1 (at_ 19 30) (Some "reserved")
                 (Some 1000) (Some 1000) ]
      ∧ log w'
        = [ SqlInsert "bookings"
              (booking_data 1 1 june1 (at_ 19 30) "reserved" 1000) ].
Proof.
  split; [vm_compute; reflexivity|].
  eexists. split; [|split]; vm_compute; reflexivity.
Qed.

Lemma verdict_true_probes (d : Database) (table_id : Z) (booking_date : date)
  (booking_time : time) :
  verdict d table_id booking_date booking_time = true →
  select_table table_id ∈ availability_probe d table_id booking_date
  ∧ select_active table_id booking_date
    ∈ availability_probe d table_id booking_date.
Proof.
  unfold verdict, availability_probe.
  destruct (find_table d table_id) as [table|]; [|discriminate].
  destruct (bool_decide _); [discriminate|]. intros _.
  split; [left | right; left].
Qed.

(** The handler up to its dialog. *)
Lemma form_create_until_dialog (w : World) (user_id table_id : Z)
  (booking_date : date) (booking_time : time) :
  let answer :=
    fst (backend.check_table_availability table_id booking_date booking_time w) in
  let out :=
    BookingsTab.create_booking user_id table_id booking_date booking_time w in
  ∃ reads,
    Forall is_read reads
    ∧ ((log (snd out) = log w ++ reads
        ∧ db (snd out) = db w
        ∧ ∀ n, fst out ≠ BookingsTab.InfoCreated n)
       ∨ (answer = true
          ∧ select_table table_id ∈ reads
          ∧ select_active table_id booking_date ∈ reads
          ∧ ∃ data, log (snd out) = log w ++ reads ++ [SqlInsert "bookings" data]))
    ∧ (answer = false →
       (fst out = BookingsTab.ErrorTableUnavailable
        ∨ fst out = BookingsTab.ErrorSlotTaken)
       ∧ db (snd out) = db w
       ∧ log (snd out) = log w ++ reads).
Proof.
  intros answer out. subst answer out.
  unfold backend.check_table_availability.
  rewrite check_table_availability_run, form_create_run. cbn [fst].
  destruct (verdict (db w) table_id booking_date booking_time) eqn:Hv.
  - exists (status_probe table_id
            ++ availability_probe (db w) table_id booking_date).
    split; [apply probes_read|]. split; [|discriminate].
    rewrite create_booking_run. cbn [default].
    change (negb (bool_decide ("reserved" ∈ BookingModel.valid_statuses))) with false.
    cbv beta iota.
    destruct (date_ltb _ _).
    { left. split; [reflexivity|]. split; [reflexivity|]. discriminate. }
    right. split; [reflexivity|].
    destruct (verdict_true_probes _ _ _ _ Hv) as [H1 H2].
    split; [apply elem_of_app; by right|].
    split; [apply elem_of_app; by right|].
    eexists.
    destruct (rel_row_ok _ _); cbn [snd]; unfold sent; cbn [log];
      by rewrite <- app_assoc.
  - destruct (if table_id =? 0 then _ else _).
    + exists (status_probe table_id).
      split; [unfold status_probe; destruct (table_id =? 0); repeat constructor|].
      split.
      * left. split; [reflexivity|]. split; [reflexivity|]. discriminate.
      * intros _. split; [by left|]. split; reflexivity.
    + exists (status_probe table_id
              ++ availability_probe (db w) table_id booking_date).
      split; [apply probes_read|]. split.
      * left. split; [reflexivity|]. split; [reflexivity|]. discriminate.
      * intros _. split; [by right|]. split; reflexivity.
Qed.

Lemma reads_only_ret {A} (a : A) : reads_only (ret a).
Proof. intros w. split; [done|]. exists []. by rewrite app_nil_r. Qed.

Lemma reads_only_bind {A B} (m : M A) (k : A → M B) :
  reads_only m → (∀ a, reads_only (k a)) → reads_only (bind m k).
Proof.
  intros Hm Hk w. unfold bind.
  destruct (Hm w) as (Hd1 & r1 & Hl1 & Hr1).
  destruct (m w) as [a w1]. cbn [snd] in *.
  destruct (Hk a w1) as (Hd2 & r2 & Hl2 & Hr2).
  split; [congruence|]. exists (r1 ++ r2).
  split; [by rewrite Hl2, Hl1, app_assoc | by apply Forall_app].
Qed.

Lemma reads_only_select (R : Type) `{Relation R} (where_ : dict)
  (limit : option Z) :
  reads_only (PostgreSQLDriver.select R where_ limit).
Proof.
  intros w. unfold PostgreSQLDriver.select, bind, execute, ret, sql_select.
  destruct limit as [n|]; [destruct (n =? 0)|];
    try destruct (n <? 0); cbn [snd db log];
    (split; [done|]); eexists; (split; [done|]); repeat constructor.
Qed.

Lemma reads_only_select_one (R : Type) `{Relation R} (where_ : dict) :
  reads_only (PostgreSQLDriver.select_one R where_).
Proof.
  apply reads_only_bind; [apply reads_only_select|].
  intros a. apply reads_only_ret.
Qed.

Lemma reads_only_select_ordered (R : Type) `{Relation R} (where_ : dict)
  (order_by : list R → list R) (limit : option Z) :
  reads_only (PostgreSQLDriver.select_ordered R where_ order_by limit).
Proof.
  intros w.
  unfold PostgreSQLDriver.select_ordered, bind, execute, ret, sql_select_ordered.
  destruct limit as [n|]; [destruct (n =? 0)|];
    try destruct (n <? 0); cbn [snd db log];
    (split; [done|]); eexists; (split; [done|]); repeat constructor.
Qed.

Lemma reads_only_get_user (user_id : option Z) (email : option string) :
  reads_only (backend.get_user user_id email).
Proof.
  unfold backend.get_user.
  assert (He : reads_only
                 match email with
                 | Some e => if bool_decide (e = "") then ret None
                             else UserModel.get_user_by_email e
                 | None => ret None
                 end).
  { destruct email as [e|]; [destruct (bool_decide _)|];
      first [apply reads_only_ret | apply reads_only_select_one]. }
  destruct user_id as [i|]; [destruct (negb _)|]; try exact He.
  apply reads_only_select_one.
Qed.

Lemma reads_only_get_table (table_id table_number : option Z) :
  reads_only (backend.get_table table_id table_number).
Proof.
  unfold backend.get_table.
  destruct table_id as [i|]; [destruct (negb _)|];
    try destruct table_number;
    first [apply reads_only_ret | apply reads_only_select_one].
Qed.

Lemma reads_only_show_bookings (bookings : list Bookings.row) :
  reads_only (BookingsTab.show_bookings bookings).
Proof.
  induction bookings as [|b l IH]; [apply reads_only_ret|].
  cbn [BookingsTab.show_bookings].
  apply reads_only_bind.
  { destruct (negb _); [apply reads_only_get_user | apply reads_only_ret]. }
  intros _. apply reads_only_bind; [|intros _; exact IH].
  destruct (negb _); [apply reads_only_get_table | apply reads_only_ret].
Qed.

Lemma reads_only_refresh_list (f : BookingsTab.filters) :
  reads_only (BookingsTab.refresh_list f).
Proof.
  unfold BookingsTab.refresh_list.
  apply reads_only_bind.
  { destruct (BookingsTab.filter_user f); [destruct (BookingsTab.filter_table f)| |];
      first [apply reads_only_ret | apply reads_only_select_ordered]. }
  intros bookings. apply reads_only_bind; [apply reads_only_show_bookings|].
  intros _. apply reads_only_bind.
  - unfold BookingsTab.refresh_user_list.
    apply reads_only_bind; [apply reads_only_select_ordered|].
    intros _. apply reads_only_ret.
  - intros _. unfold BookingsTab.refresh_table_list.
    apply reads_only_bind; [|intros _; apply reads_only_ret].
    unfold backend.get_all_tables, TableModel.get_all_tables.
    apply reads_only_bind; [apply reads_only_select_ordered|].
    intros a. apply reads_only_ret.
Qed.

Lemma create_booking_sends (w : World) (user_id table_id : Z)
  (booking_date : date) (booking_time : time) (status : option string) :
  let made := BookingModel.create_booking user_id table_id booking_date
                booking_time status w in
  log (snd made) = log w
  ∨ ∃ data, log (snd made) = log w ++ [SqlInsert "bookings" data].
Proof.
  cbv zeta. rewrite create_booking_run.
  destruct (negb _); [by left|]. destruct (date_ltb _ _); [by left|].
  right. eexists. destruct (rel_row_ok _ _); reflexivity.
Qed.

(** C2, amended.  [create_booking] never consults the availability check:
    the only statement it can send is its INSERT.  The gate is in the form
    handler: the only write it sends is one INSERT into [bookings], after the
    reads of the availability check and only when that check answers [True],
    every statement before and after it being a read; when the check answers
    [False] the handler shows a rejection, sends reads only and leaves the
    store as it was. *)
Theorem form_inserts_only_after_check (f : BookingsTab.filters) (w : World)
  (user_id table_id : Z)
  (booking_date : date) (booking_time : time) :
  let answer :=
    fst (backend.check_table_availability table_id booking_date booking_time w) in
  let out :=
    BookingsTab.create_booking_then_refresh f user_id table_id booking_date
      booking_time w in
  (∃ reads,
     Forall is_read reads
     ∧ ((log (snd out) = log w ++ reads
         ∧ db (snd out) = db w
         ∧ ∀ n, fst out ≠ BookingsTab.InfoCreated n)
        ∨ (answer = true
           ∧ select_table table_id ∈ reads
           ∧ select_active table_id booking_date ∈ reads
           ∧ ∃ data later,
               log (snd out)
               = log w ++ reads ++ [SqlInsert "bookings" data] ++ later
               ∧ Forall is_read later))
     ∧ (answer = false →
        (fst out = BookingsTab.ErrorTableUnavailable
         ∨ fst out = BookingsTab.ErrorSlotTaken)
        ∧ db (snd out) = db w
        ∧ log (snd out) = log w ++ reads))
  ∧ (∀ status,
       let made := BookingModel.create_booking user_id table_id booking_date
                     booking_time status w in
       log (snd made) = log w
       ∨ ∃ data, log (snd made) = log w ++ [SqlInsert "bookings" data]).
Proof.
  intros answer out. split; [|intros status; apply create_booking_sends].
  destruct (form_create_until_dialog w user_id table_id booking_date
              booking_time) as (reads & Hreads & Hlog & Hreject).
  fold answer in Hlog, Hreject.
  subst out. unfold BookingsTab.create_booking_then_refresh, bind.
  destruct (BookingsTab.create_booking user_id table_id booking_date
              booking_time w) as [shown w1].
  cbn [fst snd] in Hlog, Hreject.
  exists reads. split; [exact Hreads|].
  destruct shown as [| | |n].
  1-3: unfold ret; cbn [fst snd]; split; [|exact Hreject];
    destruct Hlog as [Hl | (Ha & H1 & H2 & data & Hl)]; [by left|];
    right; split; [done|]; split; [done|]; split; [done|];
    exists data, []; split; [by rewrite app_nil_r | constructor].
  destruct (reads_only_refresh_list f w1) as (Hdb & later & Hlater & Hrd).
  destruct (BookingsTab.refresh_list f w1) as [u w2].
  unfold ret. cbn [fst snd] in *. split.
  - destruct Hlog as [(_ & _ & Hno) | (Ha & H1 & H2 & data & Hl)];
      [by destruct (Hno n)|].
    right. split; [done|]. split; [done|]. split; [done|].
    exists data, later. split; [|done].
    by rewrite Hlater, Hl, <- !app_assoc.
  - intros Hf. destruct (Hreject Hf) as ([E|E] & _); discriminate E.
Qed.

Lemma form_inserts_only_after_check_witness :
  (fst (BookingsTab.create_booking_then_refresh
          (BookingsTab.mk_filters "" BookingsTab.Blank BookingsTab.Blank)
          1 1 june1 (at_ 19 30) demo)
   = BookingsTab.ErrorTableUnavailable
   ∨ fst (BookingsTab.create_booking_then_refresh
            (BookingsTab.mk_filters "" BookingsTab.Blank BookingsTab.Blank)
            1 1 june1 (at_ 19 30) demo)
     = BookingsTab.ErrorSlotTaken)
  ∧ db (snd (BookingsTab.create_booking_then_refresh
               (BookingsTab.mk_filters "" BookingsTab.Blank BookingsTab.Blank)
               1 1 june1 (at_ 19 30) demo)) = db demo.
Proof.
  destruct (form_inserts_only_after_check (BookingsTab.mk_filters "" BookingsTab.Blank BookingsTab.Blank)
              demo 1 1 june1 (at_ 19 30))
    as ((reads & _ & _ & Hreject) & _).
  assert (Hno : fst (backend.check_table_availability 1 june1 (at_ 19 30) demo)
                = false) by (vm_compute; reflexivity).
  destruct (Hreject Hno) as (Hdialog & Hdb & _).
  exact (conj Hdialog Hdb).
Defined.

(** * Further properties of the code *)

Lemma get_booking_by_id_run (booking_id : Z) (w : World) :
  BookingModel.get_booking_by_id booking_id w
  = (head (with_id booking_id (rows (bookings (db w)))),
     sent w [select_booking booking_id]).
Proof.
  unfold BookingModel.get_booking_by_id, PostgreSQLDriver.select_one,
    PostgreSQLDriver.select, bind, execute, ret, sql_select, sent, with_id.
  simpl. rewrite head_take_1. f_equal. f_equal.
  apply list_filter_iff. intros r. apply bookings_matches_id.
Qed.

Lemma delete_bookings_by_id_run (booking_id : Z) (w : World) :
  PostgreSQLDriver.delete "bookings" {[ "id" := VInt booking_id ]} w
  = (Ok (Z.of_nat (length (with_id booking_id (rows (bookings (db w)))))),
     mk_world
       (with_bookings (db w)
          (filter (λ b, Bookings.id b ≠ booking_id) (rows (bookings (db w)))))
       (today w) (now w) (log w ++ [delete_call "bookings" booking_id])).
Proof.
  unfold PostgreSQLDriver.delete.
  change (bool_decide (({[ "id" := VInt booking_id ]} : dict) = ∅)) with false.
  unfold bind, execute, ret. cbv beta iota.
  change (sql_delete_from "bookings" {[ "id" := VInt booking_id ]} (db w))
    with (sql_delete (R:=Bookings.row) {[ "id" := VInt booking_id ]} (db w)).
  unfold sql_delete, with_bookings, with_id.
  change (rel_get (db w)) with (bookings (db w)).
  rewrite (list_filter_iff (matches {[ "id" := VInt booking_id ]})
             (λ b, Bookings.id b = booking_id)) by apply bookings_matches_id.
  rewrite (list_filter_iff (λ r, ¬ matches {[ "id" := VInt booking_id ]} r)
             (λ b, Bookings.id b ≠ booking_id)).
  2:{ intros b. by rewrite bookings_matches_id. }
  reflexivity.
Qed.

Lemma delete_booking_run (booking_id : Z) (w : World) :
  BookingModel.delete_booking booking_id w
  = (0 <? Z.of_nat (length (with_id booking_id (rows (bookings (db w))))),
     mk_world
       (with_bookings (db w)
          (filter (λ b, Bookings.id b ≠ booking_id) (rows (bookings (db w)))))
       (today w) (now w)
       (log w ++ [select_booking booking_id; delete_call "bookings" booking_id])).
Proof.
  unfold BookingModel.delete_booking, bind. rewrite get_booking_by_id_run.
  change BookingModel.table_name with "bookings".
  rewrite delete_bookings_by_id_run. unfold ret, sent. cbn [db today now log].
  by rewrite <- app_assoc.
Qed.

(** X1.  [delete_booking] answers [True] exactly when a booking with the key
    was stored; afterwards the bookings are the former ones without that key,
    and tables and users (the table's status among them) are untouched. *)
Theorem delete_booking_effect (booking_id : Z) (w : World) :
  let out := BookingModel.delete_booking booking_id w in
  (fst out = true ↔ ∃ b, b ∈ rows (bookings (db w)) ∧ Bookings.id b = booking_id)
  ∧ (∀ b, b ∈ rows (bookings (db (snd out)))
          ↔ b ∈ rows (bookings (db w)) ∧ Bookings.id b ≠ booking_id)
  ∧ tables (db (snd out)) = tables (db w)
  ∧ users (db (snd out)) = users (db w).
Proof.
  intros out. subst out. rewrite delete_booking_run. cbn [fst snd db].
  split; [|split; [|split; reflexivity]].
  - unfold with_id. split.
    + intros Hpos.
      destruct (filter _ _) as [|b l] eqn:E; [discriminate Hpos|].
      assert (Hb : b ∈ filter (λ x, Bookings.id x = booking_id)
                         (rows (bookings (db w)))) by (rewrite E; left).
      apply list_elem_of_filter in Hb as [Hid Hb]. by exists b.
    + intros (b & Hb & Hid). by apply (with_id_nonempty booking_id _ b).
  - intros b. unfold with_bookings. cbn [bookings rows].
    rewrite list_elem_of_filter. tauto.
Qed.

Lemma delete_booking_effect_witness :
  fst (BookingModel.delete_booking 2 demo) = true
  ∧ tables (db (snd (BookingModel.delete_booking 2 demo))) = tables (db demo).
Proof.
  destruct (delete_booking_effect 2 demo) as (Hres & _ & Htables & _).
  split; [|exact Htables].
  apply Hres.
  exists (Bookings.mk 2 1 1 june1 (at_ 21 0) (Some "cancelled") (Some 0) (Some 0)).
  split; [right; left | reflexivity].
Defined.

(** ** Deleting a table or a user: the cascade *)
Lemma users_matches_id (user_id : Z) (r : Users.row) :
  matches {[ "id" := VInt user_id ]} r ↔ Users.id r = user_id.
Proof.
  unfold matches. rewrite map_Forall_singleton.
  change (rel_to_dict r !! "id") with (Some (VInt (Users.id r))).
  split; [intros [_ E]; congruence | intros ->; by split].
Qed.

Lemma elem_of_keys_with {A} (key : A → Z) (k : Z) (l : list A) (x : Z) :
  x ∈ (key <$> filter (λ r, key r = k) l) ↔ x = k ∧ ∃ r, r ∈ l ∧ key r = k.
Proof.
  rewrite list_elem_of_fmap. split.
  - intros (r & -> & Hr). apply list_elem_of_filter in Hr as [Hk Hr]. eauto.
  - intros (-> & r & Hr & Hk). exists r. split; [done|].
    by apply list_elem_of_filter.
Qed.

Lemma filter_nonempty {A} (P : A → Prop) `{!∀ x, Decision (P x)} (l : list A) :
  (0 <? Z.of_nat (length (filter P l))) = true ↔ ∃ x, x ∈ l ∧ P x.
Proof.
  split.
  - destruct (filter P l) as [|x k] eqn:E; [discriminate|]. intros _.
    assert (Hx : x ∈ filter P l) by (rewrite E; left).
    apply list_elem_of_filter in Hx as [HP Hx]. eauto.
  - intros (x & Hx & HP).
    assert (Hin : x ∈ filter P l) by (by apply list_elem_of_filter).
    destruct (filter P l); [by apply elem_of_nil in Hin|]. done.
Qed.

Lemma delete_table_run (table_id : Z) (w : World) :
  TableModel.delete_table table_id w
  = (0 <? Z.of_nat (length (filter (λ r, Tables.id r = table_id)
                              (rows (tables (db w))))),
     mk_world
       (mk_db (users (db w))
          (mk_rel (filter (λ r, Tables.id r ≠ table_id) (rows (tables (db w))))
             (last_id (tables (db w))))
          (mk_rel
             (filter (λ b, ¬ Bookings.table_id b
                             ∈ (Tables.id <$> filter (λ r, Tables.id r = table_id)
                                                (rows (tables (db w)))))
                (rows (bookings (db w))))
             (last_id (bookings (db w)))))
       (today w) (now w) (log w ++ [delete_call "tables" table_id])).
Proof.
  unfold TableModel.delete_table, PostgreSQLDriver.delete.
  change (bool_decide (({[ "id" := VInt table_id ]} : dict) = ∅)) with false.
  unfold bind, execute, ret. cbv beta iota.
  change (sql_delete_from TableModel.table_name {[ "id" := VInt table_id ]} (db w))
    with (sql_delete (R:=Tables.row) {[ "id" := VInt table_id ]} (db w)).
  unfold sql_delete.
  change (rel_get (db w)) with (tables (db w)).
  rewrite (list_filter_iff (matches {[ "id" := VInt table_id ]})
             (λ r, Tables.id r = table_id)) by apply tables_matches_id.
  rewrite (list_filter_iff (λ r, ¬ matches {[ "id" := VInt table_id ]} r)
             (λ r, Tables.id r ≠ table_id)).
  2:{ intros r. by rewrite tables_matches_id. }
  reflexivity.
Qed.

(** X2.  [delete_table] answers [True] exactly when a table with the key
    was stored; the table is gone afterwards and, through the cascade of the
    foreign key, so is every booking that referred to it, while the bookings
    of other tables and the users stay. *)
Theorem delete_table_cascades (table_id : Z) (w : World) :
  let out := TableModel.delete_table table_id w in
  (fst out = true ↔ ∃ r, r ∈ rows (tables (db w)) ∧ Tables.id r = table_id)
  ∧ (∀ r, r ∈ rows (tables (db (snd out)))
          ↔ r ∈ rows (tables (db w)) ∧ Tables.id r ≠ table_id)
  ∧ (fst out = true →
     ∀ b, b ∈ rows (bookings (db (snd out)))
          ↔ b ∈ rows (bookings (db w)) ∧ Bookings.table_id b ≠ table_id)
  ∧ (fst out = false →
     ∀ b, b ∈ rows (bookings (db (snd out))) ↔ b ∈ rows (bookings (db w)))
  ∧ users (db (snd out)) = users (db w).
Proof.
  intros out. subst out. rewrite delete_table_run. cbn [fst snd db].
  split; [apply filter_nonempty|].
  split.
  { intros r. cbn [tables rows]. rewrite list_elem_of_filter. tauto. }
  split; [|split; [|reflexivity]].
  - intros Hex b. apply filter_nonempty in Hex. cbn [bookings rows].
    rewrite list_elem_of_filter, elem_of_keys_with. split.
    + intros [Hno Hb]. split; [done|]. intros E. apply Hno. by split.
    + intros [Hb Hne]. split; [|done]. intros [E _]. done.
  - intros Hno b. cbn [bookings rows].
    rewrite list_elem_of_filter, elem_of_keys_with. split; [tauto|].
    intros Hb. split; [|done]. intros [_ Hex].
    pose proof (proj2 (filter_nonempty (λ r, Tables.id r = table_id) _) Hex).
    congruence.
Qed.

Lemma delete_table_cascades_witness :
  fst (TableModel.delete_table 1 demo) = true
  ∧ ∀ b, b ∈ rows (bookings (db (snd (TableModel.delete_table 1 demo))))
         ↔ b ∈ rows (bookings (db demo)) ∧ Bookings.table_id b ≠ 1.
Proof.
  destruct (delete_table_cascades 1 demo) as (Hres & _ & Hgone & _).
  assert (Hyes : fst (TableModel.delete_table 1 demo) = true).
  { apply Hres. exists (Tables.mk 1 7 4 (Some "available")).
    split; [left | reflexivity]. }
  exact (conj Hyes (Hgone Hyes)).
Defined.

Section UserDeletion.
Variable hash_password : string → string.

Lemma hard_delete_user_run (user_id : Z) (w : World) :
  UserModel.delete_user hash_password user_id true w
  = (0 <? Z.of_nat (length (filter (λ r, Users.id r = user_id)
                              (rows (users (db w))))),
     mk_world
       (mk_db
          (mk_rel (filter (λ r, Users.id r ≠ user_id) (rows (users (db w))))
             (last_id (users (db w))))
          (tables (db w))
          (mk_rel
             (filter (λ b, ¬ Bookings.user_id b
                             ∈ (Users.id <$> filter (λ r, Users.id r = user_id)
                                               (rows (users (db w)))))
                (rows (bookings (db w))))
             (last_id (bookings (db w)))))
       (today w) (now w) (log w ++ [delete_call "users" user_id])).
Proof.
  unfold UserModel.delete_user, PostgreSQLDriver.delete.
  change (bool_decide (({[ "id" := VInt user_id ]} : dict) = ∅)) with false.
  unfold bind, execute, ret. cbv beta iota.
  change (sql_delete_from UserModel.table_name {[ "id" := VInt user_id ]} (db w))
    with (sql_delete (R:=Users.row) {[ "id" := VInt user_id ]} (db w)).
  unfold sql_delete.
  change (rel_get (db w)) with (users (db w)).
  rewrite (list_filter_iff (matches {[ "id" := VInt user_id ]})
             (λ r, Users.id r = user_id)) by apply users_matches_id.
  rewrite (list_filter_iff (λ r, ¬ matches {[ "id" := VInt user_id ]} r)
             (λ r, Users.id r ≠ user_id)).
  2:{ intros r. by rewrite users_matches_id. }
  reflexivity.
Qed.

(** X3.  [delete_user] with [hard_delete=True] answers [True] exactly when a
    user with the key was stored; the user is gone afterwards together with
    every booking of that user; other bookings and the tables stay. *)
Theorem hard_delete_user_cascades (user_id : Z) (w : World) :
  let out := UserModel.delete_user hash_password user_id true w in
  (fst out = true ↔ ∃ r, r ∈ rows (users (db w)) ∧ Users.id r = user_id)
  ∧ (∀ r, r ∈ rows (users (db (snd out)))
          ↔ r ∈ rows (users (db w)) ∧ Users.id r ≠ user_id)
  ∧ (fst out = true →
     ∀ b, b ∈ rows (bookings (db (snd out)))
          ↔ b ∈ rows (bookings (db w)) ∧ Bookings.user_id b ≠ user_id)
  ∧ tables (db (snd out)) = tables (db w).
Proof.
  intros out. subst out. rewrite hard_delete_user_run. cbn [fst snd db].
  split; [apply filter_nonempty|].
  split.
  { intros r. cbn [users rows]. rewrite list_elem_of_filter. tauto. }
  split; [|reflexivity].
  intros Hex b. apply filter_nonempty in Hex. cbn [bookings rows].
  rewrite list_elem_of_filter, elem_of_keys_with. split.
  - intros [Hno Hb]. split; [done|]. intros E. apply Hno. by split.
  - intros [Hb Hne]. split; [|done]. intros [E _]. done.
Qed.

Lemma soft_delete_user_run (user_id : Z) (w : World) :
  let hit := filter (λ r, Users.id r = user_id) (rows (users (db w))) in
  let new := (λ u, if decide (Users.id u = user_id)
                   then deactivated (now w) u else u) <$> rows (users (db w)) in
  let d' := mk_db (mk_rel new (last_id (users (db w)))) (tables (db w))
              (bookings (db w)) in
  UserModel.delete_user hash_password user_id false w
  = if forallb (rel_row_ok d') (deactivated (now w) <$> hit)
    then (0 <? Z.of_nat (length hit),
          mk_world d' (today w) (now w)
            (log w ++ [deactivate_call user_id (now w)]))
    else (false, sent w [deactivate_call user_id (now w)]).
Proof.
  intros hit new d'.
  unfold UserModel.delete_user, UserModel.update_user, bind, get_now,
    PostgreSQLDriver.update.
  change (bool_decide ((<[ "is_active" := VBool false ]>
                          ({[ "updated_at" := VStamp (now w) ]} : dict)) = ∅))
    with false.
  change (bool_decide (({[ "id" := VInt user_id ]} : dict) = ∅)) with false.
  cbn [orb]. unfold bind, execute, ret. cbv beta iota.
  change (sql_update_in UserModel.table_name
            (<[ "is_active" := VBool false ]> {[ "updated_at" := VStamp (now w) ]})
            {[ "id" := VInt user_id ]} (db w))
    with (sql_update (R:=Users.row)
            (<[ "is_active" := VBool false ]> {[ "updated_at" := VStamp (now w) ]})
            {[ "id" := VInt user_id ]} (db w)).
  unfold sql_update.
  change (bool_decide (dom (<[ "is_active" := VBool false ]>
                              ({[ "updated_at" := VStamp (now w) ]} : dict))
                       ⊆ rel_columns Users.row)) with true.
  change (rel_get (db w)) with (users (db w)).
  rewrite (list_filter_iff (matches {[ "id" := VInt user_id ]})
             (λ r, Users.id r = user_id)) by apply users_matches_id.
  fold hit.
  rewrite (mapM_total _ (λ u, if decide (Users.id u = user_id)
                              then deactivated (now w) u else u)).
  2:{ intros u. destruct (decide (matches _ u)) as [Hm|Hm];
        destruct (decide (Users.id u = user_id)) as [Hi|Hi];
        rewrite users_matches_id in Hm; done. }
  rewrite (mapM_total _ (deactivated (now w))) by done.
  fold new. change (rel_put (mk_rel new (last_id (users (db w)))) (db w)) with d'.
  destruct (forallb _ _); reflexivity.
Qed.

(** X4.  [delete_user] with [hard_delete=False] keeps the row of an existing
    user (whose email is unique): it sets [is_active] to false and
    [updated_at] to now, answers [True] and leaves tables and bookings as
    they were. *)
Theorem soft_delete_user_deactivates (user_id : Z) (w : World) :
  (∃ u, u ∈ rows (users (db w)) ∧ Users.id u = user_id) →
  (∀ u, u ∈ rows (users (db w)) → Users.id u = user_id →
        length (filter (λ x, Users.email x = Users.email u) (rows (users (db w))))
        = 1%nat) →
  UserModel.delete_user hash_password user_id false w
  = (true,
     mk_world
       (mk_db
          (mk_rel ((λ u, if decide (Users.id u = user_id)
                         then deactivated (now w) u else u)
                   <$> rows (users (db w)))
             (last_id (users (db w))))
          (tables (db w)) (bookings (db w)))
       (today w) (now w) (log w ++ [deactivate_call user_id (now w)])).
Proof.
  intros Hex Huniq. rewrite soft_delete_user_run.
  pose proof (proj2 (filter_nonempty (λ r, Users.id r = user_id) _) Hex) as Hpos.
  rewrite Hpos.
  assert (Hok : forallb
            (rel_row_ok
               (mk_db
                  (mk_rel ((λ u, if decide (Users.id u = user_id)
                                 then deactivated (now w) u else u)
                           <$> rows (users (db w)))
                     (last_id (users (db w))))
                  (tables (db w)) (bookings (db w))))
            (deactivated (now w)
             <$> filter (λ r, Users.id r = user_id) (rows (users (db w))))
          = true).
  { apply Is_true_true, forallb_True, Forall_forall. intros x Hx.
    apply list_elem_of_fmap in Hx as (u & -> & Hu).
    apply list_elem_of_filter in Hu as [Hid Hu].
    apply Is_true_true. cbn [rel_row_ok users_relation users rows].
    apply bool_decide_eq_true_2.
    rewrite filter_fmap_length. rewrite <- (Huniq u Hu Hid). f_equal.
    apply list_filter_iff. intros y. cbn [deactivated Users.email].
    by destruct (decide (Users.id y = user_id)). }
  by rewrite Hok.
Qed.

End UserDeletion.

Lemma hard_delete_user_cascades_witness :
  fst (UserModel.delete_user (λ p, p) 1 true demo) = true
  ∧ ∀ b, b ∈ rows (bookings (db (snd (UserModel.delete_user (λ p, p) 1 true demo))))
         ↔ b ∈ rows (bookings (db demo)) ∧ Bookings.user_id b ≠ 1.
Proof.
  destruct (hard_delete_user_cascades (λ p, p) 1 demo) as (Hres & _ & Hgone & _).
  assert (Hyes : fst (UserModel.delete_user (λ p, p) 1 true demo) = true).
  { apply Hres.
    exists (Users.mk 1 "Anna" "anna@example.com" None "$2b$12$hash"
              (Some "client") (Some 0) (Some 0) (Some true)).
    split; [left | reflexivity]. }
  exact (conj Hyes (Hgone Hyes)).
Defined.

Lemma soft_delete_user_deactivates_witness :
  UserModel.delete_user (λ p, p) 1 false demo
  = (true,
     mk_world
       (mk_db
          (mk_rel [ Users.mk 1 "Anna" "anna@example.com" None "$2b$12$hash"
                      (Some "client") (Some 0) (Some 1000) (Some false) ] 1)
          (tables demo_db) (bookings demo_db))
       (mk_date 2025 5 20) 1000 [deactivate_call 1 1000]).
Proof.
  refine (soft_delete_user_deactivates (λ p, p) 1 demo _ _).
  - eexists. split; [left | reflexivity].
  - intros u Hu _. simpl in Hu.
    apply elem_of_cons in Hu as [->|Hu]; [reflexivity|by apply elem_of_nil in Hu].
Defined.

Lemma tables_matches_number (table_number : Z) (r : Tables.row) :
  matches {[ "table_number" := VInt table_number ]} r
  ↔ Tables.table_number r = table_number.
Proof.
  unfold matches. rewrite map_Forall_singleton.
  change (rel_to_dict r !! "table_number")
    with (Some (VInt (Tables.table_number r))).
  split; [intros [_ E]; congruence | intros ->; by split].
Qed.

Lemma get_table_by_number_run (table_number : Z) (w : World) :
  TableModel.get_table_by_number table_number w
  = (head (with_number table_number (rows (tables (db w)))),
     sent w [select_number table_number]).
Proof.
  unfold TableModel.get_table_by_number, PostgreSQLDriver.select_one,
    PostgreSQLDriver.select, bind, execute, ret, sql_select, sent, with_number.
  simpl. rewrite head_take_1. f_equal. f_equal.
  apply list_filter_iff. intros r. apply tables_matches_number.
Qed.

Lemma create_table_item_run (w : World) (table_number seats : Z)
  (status : option string) :
  let s := default "available" status in
  let r := new_table (db w) table_number seats s in
  let call := SqlInsert "tables" (table_data table_number seats s) in
  let keep l := mk_db (users (db w)) (mk_rel l (Tables.id r)) (bookings (db w)) in
  TableModel.create_table_item table_number seats status w
  = if seats <=? 0 then (None, w)
    else if negb (bool_decide (s ∈ Tables.valid_statuses)) then (None, w)
    else if rel_row_ok (keep (rows (tables (db w)) ++ [r])) r
    then (Some (Tables.id r),
          mk_world (keep (rows (tables (db w)) ++ [r])) (today w) (now w)
            (log w ++ [call]))
    else (None,
          mk_world (keep (rows (tables (db w)))) (today w) (now w)
            (log w ++ [call])).
Proof.
  intros s r call keep. unfold TableModel.create_table_item. fold s.
  destruct (seats <=? 0); [reflexivity|].
  destruct (negb _); [reflexivity|].
  unfold PostgreSQLDriver.insert, bind, get_now, execute.
  change TableModel.table_name with "tables".
  fold (table_data table_number seats s).
  change (bool_decide (table_data table_number seats s = ∅)) with false.
  cbv beta iota.
  change (sql_insert_into "tables" (now w) (table_data table_number seats s) (db w))
    with (if rel_row_ok (keep (rows (tables (db w)) ++ [r])) r
          then (Some (Tables.id r), keep (rows (tables (db w)) ++ [r]))
          else (None, keep (rows (tables (db w))))).
  destruct (rel_row_ok _ r); reflexivity.
Qed.

(** X5.  [create_table_item] returns [None] without asking the store when
    [seats] is not positive or the status is outside the enum, and returns
    [None] leaving the tables as they were when the table number is already
    taken. *)
Theorem create_table_item_rejects (w : World) (table_number seats : Z)
  (status : option string) :
  (seats ≤ 0 →
   TableModel.create_table_item table_number seats status w = (None, w))
  ∧ (default "available" status ∉ Tables.valid_statuses →
     TableModel.create_table_item table_number seats status w = (None, w))
  ∧ ((∃ r, r ∈ rows (tables (db w)) ∧ Tables.table_number r = table_number) →
     fst (TableModel.create_table_item table_number seats status w) = None
     ∧ rows (tables (db (snd (TableModel.create_table_item table_number seats
                                status w))))
       = rows (tables (db w))).
Proof.
  rewrite create_table_item_run. split; [|split].
  - intros Hs. by rewrite (proj2 (Z.leb_le _ _) Hs).
  - intros Hbad. destruct (seats <=? 0); [done|].
    by rewrite (bool_decide_eq_false_2 _ Hbad).
  - intros (r & Hr & Hn).
    destruct (seats <=? 0); [done|]. destruct (negb _); [done|].
    assert (Hdup : rel_row_ok
              (mk_db (users (db w))
                 (mk_rel (rows (tables (db w))
                          ++ [new_table (db w) table_number seats
                                (default "available" status)])
                    (Tables.id (new_table (db w) table_number seats
                                  (default "available" status))))
                 (bookings (db w)))
              (new_table (db w) table_number seats (default "available" status))
            = false).
    { cbn [rel_row_ok tables_relation tables rows new_table Tables.table_number].
      apply andb_false_intro2, bool_decide_eq_false_2.
      rewrite filter_app, length_app.
      rewrite filter_cons_True by done. cbn [length filter].
      assert (Hin : r ∈ filter (λ x, Tables.table_number x = table_number)
                          (rows (tables (db w)))) by (by apply list_elem_of_filter).
      destruct (filter _ (rows (tables (db w)))); [by apply elem_of_nil in Hin|].
      rewrite filter_nil. simpl. lia. }
    rewrite Hdup. done.
Qed.

Lemma create_table_item_rejects_witness :
  TableModel.create_table_item 9 0 None demo = (None, demo)
  ∧ TableModel.create_table_item 9 4 (Some "broken") demo = (None, demo)
  ∧ fst (TableModel.create_table_item 7 4 None demo) = None
  ∧ rows (tables (db (snd (TableModel.create_table_item 7 4 None demo))))
    = rows (tables (db demo)).
Proof.
  destruct (create_table_item_rejects demo 9 0 None) as (H1 & _ & _).
  destruct (create_table_item_rejects demo 9 4 (Some "broken")) as (_ & H2 & _).
  destruct (create_table_item_rejects demo 7 4 None) as (_ & _ & H3).
  refine (conj (H1 _) (conj (H2 _) (H3 _))).
  - lia.
  - vm_compute. intros H. repeat (inversion H as [|? ? ? H']; subst; clear H; rename H' into H).
  - exists (Tables.mk 1 7 4 (Some "available")). split; [left|reflexivity].
Defined.

(** X6.  A table created by [create_table_item] is the one
    [get_table_by_number] then returns, with the key the creation returned,
    the seats given and the status given (['available'] when left out), and
    [table_exists] answers [True]. *)
Theorem create_table_item_then_lookup (w w' : World) (table_number seats : Z)
  (status : option string) (n : Z) :
  TableModel.create_table_item table_number seats status w = (Some n, w') →
  fst (TableModel.get_table_by_number table_number w')
  = Some (Tables.mk n table_number seats (Some (default "available" status)))
  ∧ fst (TableModel.table_exists table_number w') = true.
Proof.
  rewrite create_table_item_run.
  destruct (seats <=? 0); [discriminate|]. destruct (negb _); [discriminate|].
  destruct (rel_row_ok _ _) eqn:Hok; [|discriminate].
  intros E. injection E as <- <-.
  unfold TableModel.table_exists, bind, ret.
  rewrite get_table_by_number_run. cbn [fst db tables rows].
  cbn [rel_row_ok tables_relation tables rows new_table Tables.table_number] in Hok.
  apply andb_prop in Hok as [_ Hone]. apply bool_decide_eq_true_1 in Hone.
  unfold with_number. rewrite filter_app in *. rewrite length_app in Hone.
  rewrite filter_cons_True in * by done. rewrite filter_nil in *.
  destruct (filter _ (rows (tables (db w)))); [|simpl in Hone; lia].
  done.
Qed.

Lemma create_table_item_then_lookup_witness :
  fst (TableModel.get_table_by_number 9
         (snd (TableModel.create_table_item 9 4 None demo)))
  = Some (Tables.mk 3 9 4 (Some "available")).
Proof.
  refine (proj1 (create_table_item_then_lookup demo _ 9 4 None 3 _)).
  vm_compute. reflexivity.
Defined.

(** X7.  [update_table] returns [False] without asking the store when
    [seats] is supplied and not positive, when [status] is supplied and
    outside the enum, and when no field is supplied. *)
Theorem update_table_rejects (w : World) (table_id : Z)
  (table_number seats : option Z) (status : option string) :
  ((∃ n, seats = Some n ∧ n ≤ 0)
   ∨ (∃ s, status = Some s ∧ s ∉ Tables.valid_statuses)
   ∨ (table_number = None ∧ seats = None ∧ status = None)) →
  TableModel.update_table table_id table_number seats status w = (false, w).
Proof.
  unfold TableModel.update_table, TableModel.update_data.
  intros [(n & -> & Hn) | [(s & -> & Hs) | (-> & -> & ->)]].
  - by rewrite (proj2 (Z.leb_le _ _) Hn).
  - rewrite (bool_decide_eq_false_2 _ Hs).
    destruct seats as [n|]; [destruct (n <=? 0)|]; reflexivity.
  - reflexivity.
Qed.

Lemma update_table_rejects_witness :
  TableModel.update_table 1 (Some 9) (Some 0) (Some "available") demo = (false, demo)
  ∧ TableModel.update_table 1 None None (Some "closed") demo = (false, demo)
  ∧ TableModel.update_table 1 None None None demo = (false, demo).
Proof.
  refine (conj (update_table_rejects demo 1 (Some 9) (Some 0) (Some "available") _)
            (conj (update_table_rejects demo 1 None None (Some "closed") _)
               (update_table_rejects demo 1 None None None _))).
  - left. exists 0. split; [reflexivity|lia].
  - right; left. exists "closed". split; [reflexivity|].
    vm_compute. intros H.
    repeat (inversion H as [|? ? ? H']; subst; clear H; rename H' into H).
  - right; right. by repeat split.
Defined.

Lemma table_set_status_run (w : World) (table_id : Z) (s : string) :
  s ∈ Tables.valid_statuses →
  let hit := filter (λ r, Tables.id r = table_id) (rows (tables (db w))) in
  let d' := mk_db (users (db w))
              (mk_rel (mark_where table_id s (rows (tables (db w))))
                 (last_id (tables (db w))))
              (bookings (db w)) in
  let call := SqlUpdate "tables" {[ "status" := VStr s ]}
                {[ "id" := VInt table_id ]} in
  TableModel.set_status table_id s w
  = if forallb (rel_row_ok d') (with_status s <$> hit)
    then (0 <? Z.of_nat (length hit),
          mk_world d' (today w) (now w) (log w ++ [call]))
    else (false, sent w [call]).
Proof.
  intros Hs hit d' call.
  unfold TableModel.set_status, TableModel.update_table, TableModel.update_data.
  rewrite (bool_decide_eq_true_2 _ Hs). cbn [negb].
  change (<[ "status" := VStr s ]> (∅ : dict)) with ({[ "status" := VStr s ]} : dict).
  change (bool_decide (({[ "status" := VStr s ]} : dict) = ∅)) with false.
  cbv beta iota. unfold PostgreSQLDriver.update.
  change (bool_decide (({[ "status" := VStr s ]} : dict) = ∅)) with false.
  change (bool_decide (({[ "id" := VInt table_id ]} : dict) = ∅)) with false.
  cbn [orb]. unfold bind, execute, ret. cbv beta iota.
  change (sql_update_in TableModel.table_name {[ "status" := VStr s ]}
            {[ "id" := VInt table_id ]} (db w))
    with (sql_update (R:=Tables.row) {[ "status" := VStr s ]}
            {[ "id" := VInt table_id ]} (db w)).
  unfold sql_update.
  change (bool_decide (dom ({[ "status" := VStr s ]} : dict)
                       ⊆ rel_columns Tables.row)) with true.
  change (rel_get (db w)) with (tables (db w)).
  rewrite (list_filter_iff (matches {[ "id" := VInt table_id ]})
             (λ r, Tables.id r = table_id)) by apply tables_matches_id.
  fold hit.
  rewrite (mapM_total _ (λ r, if decide (Tables.id r = table_id)
                              then with_status s r else r)).
  2:{ intros r. destruct (decide (matches _ r)) as [Hm|Hm];
        destruct (decide (Tables.id r = table_id)) as [Hi|Hi];
        rewrite tables_matches_id in Hm; done. }
  rewrite (mapM_total _ (with_status s)) by done.
  fold (mark_where table_id s (rows (tables (db w)))).
  change (rel_put (mk_rel (mark_where table_id s (rows (tables (db w))))
                     (last_id (tables (db w)))) (db w)) with d'.
  destruct (forallb _ _); reflexivity.
Qed.

Lemma find_table_marked (table_id : Z) (s : string) (l : list Tables.row) :
  head (filter (λ r, Tables.id r = table_id) (mark_where table_id s l))
  = with_status s <$> head (filter (λ r, Tables.id r = table_id) l).
Proof.
  unfold mark_where. rewrite filter_fmap.
  rewrite (list_filter_iff _ (λ r, Tables.id r = table_id)).
  2:{ intros r. by destruct (decide (Tables.id r = table_id)). }
  induction l as [|r l IH]; [done|].
  rewrite filter_cons. destruct (decide (Tables.id r = table_id)) as [E|E].
  - cbn. by rewrite decide_True.
  - exact IH.
Qed.

(** X8.  Once [set_status] has marked a table ['unavailable'],
    [check_table_availability] answers [False] for that table at every date
    and time. *)
Theorem unavailable_status_blocks_every_slot (w w' : World) (table_id : Z) :
  TableModel.set_status table_id "unavailable" w = (true, w') →
  ∀ booking_date booking_time,
    fst (BookingModel.check_table_availability table_id booking_date
           booking_time w') = false.
Proof.
  intros Hrun booking_date booking_time.
  rewrite table_set_status_run in Hrun by (right; left).
  destruct (forallb _ _); [|discriminate Hrun].
  injection Hrun as Hpos <-.
  rewrite check_table_availability_run. cbn [fst db]. unfold verdict, find_table.
  cbn [tables rows]. rewrite find_table_marked.
  destruct (head _) as [r|]; [reflexivity|reflexivity].
Qed.

Lemma unavailable_status_blocks_every_slot_witness :
  fst (BookingModel.check_table_availability 1 june2 (at_ 19 0)
         (snd (TableModel.set_status 1 "unavailable" demo))) = false
  ∧ fst (BookingModel.check_table_availability 1 june2 (at_ 19 0) demo) = true.
Proof.
  split.
  - refine (unavailable_status_blocks_every_slot demo _ 1 _ june2 (at_ 19 0)).
    vm_compute. reflexivity.
  - vm_compute. reflexivity.
Defined.

(** ** Bookings: how creation, lookup, cancellation and the check compose *)
Lemma create_booking_cases (w : World) (user_id table_id : Z)
  (booking_date : date) (booking_time : time) (status : option string) :
  let b := new_booking (db w) user_id table_id booking_date booking_time
             (default "pending" status) (now w) in
  let out := BookingModel.create_booking user_id table_id booking_date
               booking_time status w in
  (fst out = Some (Bookings.id b)
   ∧ rows (bookings (db (snd out))) = rows (bookings (db w)) ++ [b]
   ∧ last_id (bookings (db (snd out))) = Bookings.id b
   ∧ default "pending" status ∈ BookingModel.valid_statuses
   ∧ date_ltb booking_date (today w) = false
   ∧ rel_row_ok (db w) b = true)
  ∨ (fst out = None
     ∧ rows (bookings (db (snd out))) = rows (bookings (db w)))
  .
Proof.
  intros b out. subst out. rewrite create_booking_run. fold b.
  destruct (bool_decide (default "pending" status ∈ BookingModel.valid_statuses))
    eqn:Hs; cbn [negb]; [|by right].
  apply bool_decide_eq_true_1 in Hs.
  destruct (date_ltb _ _) eqn:Hd; [by right|].
  destruct (rel_row_ok _ _) eqn:Hok; [left|by right].
  repeat split; done.
Qed.

Lemma create_booking_tables (w : World) (user_id table_id : Z)
  (booking_date : date) (booking_time : time) (status : option string) :
  tables (db (snd (BookingModel.create_booking user_id table_id booking_date
                     booking_time status w))) = tables (db w)
  ∧ users (db (snd (BookingModel.create_booking user_id table_id booking_date
                      booking_time status w))) = users (db w).
Proof.
  rewrite create_booking_run.
  destruct (negb _); [done|]. destruct (date_ltb _ _); [done|].
  destruct (rel_row_ok _ _); done.
Qed.

Lemma filter_none {A} (P : A → Prop) `{!∀ x, Decision (P x)} (l : list A) :
  (∀ x, x ∈ l → ¬ P x) → filter P l = [].
Proof.
  induction l as [|x l IH]; [done|]. intros Hno.
  rewrite filter_cons_False by (apply Hno; left).
  apply IH. intros y Hy. apply Hno. by right.
Qed.

(** X9.  [create_booking] with a user key or a table key that no row has
    returns [None] and adds no booking: the foreign keys of the store reject
    the insert. *)
Theorem create_booking_needs_user_and_table (w : World) (user_id table_id : Z)
  (booking_date : date) (booking_time : time) (status : option string) :
  ((∀ u, u ∈ rows (users (db w)) → Users.id u ≠ user_id)
   ∨ (∀ r, r ∈ rows (tables (db w)) → Tables.id r ≠ table_id)) →
  let out := BookingModel.create_booking user_id table_id booking_date
               booking_time status w in
  fst out = None ∧ rows (bookings (db (snd out))) = rows (bookings (db w)).
Proof.
  intros Hmissing out. subst out.
  destruct (create_booking_cases w user_id table_id booking_date booking_time status)
    as [(_ & _ & _ & _ & _ & Hok) | H]; [|exact H].
  exfalso.
  cbn [rel_row_ok bookings_relation new_booking Bookings.user_id Bookings.table_id]
    in Hok.
  apply andb_prop in Hok as [Hok _]. apply andb_prop in Hok as [Hu Ht].
  apply bool_decide_eq_true_1 in Hu. apply bool_decide_eq_true_1 in Ht.
  apply list_elem_of_fmap in Hu as (u & Eu & Hu).
  apply list_elem_of_fmap in Ht as (r & Er & Hr).
  destruct Hmissing as [Hno|Hno]; [by apply (Hno u) | by apply (Hno r)].
Qed.

Lemma create_booking_needs_user_and_table_witness :
  fst (BookingModel.create_booking 5 1 june2 (at_ 12 0) None demo) = None
  ∧ rows (bookings (db (snd (BookingModel.create_booking 5 1 june2 (at_ 12 0)
                               None demo))))
    = rows (bookings (db demo)).
Proof.
  refine (create_booking_needs_user_and_table demo 5 1 june2 (at_ 12 0) None _).
  left. intros u Hu. simpl in Hu.
  apply elem_of_cons in Hu as [->|Hu]; [discriminate|by apply elem_of_nil in Hu].
Defined.

(** X10.  In a store whose booking keys were issued by the identity
    sequence, the booking [create_booking] reports is the one
    [get_booking_by_id] then returns: it has the reported key and the user,
    table, date, time and status given (['pending'] when left out); and the
    keys of the store are still issued ones. *)
Theorem create_booking_then_get (w w' : World) (user_id table_id : Z)
  (booking_date : date) (booking_time : time) (status : option string) (n : Z) :
  keys_issued (bookings (db w)) →
  BookingModel.create_booking user_id table_id booking_date booking_time status w
  = (Some n, w') →
  (∃ b, fst (BookingModel.get_booking_by_id n w') = Some b
        ∧ Bookings.id b = n
        ∧ Bookings.user_id b = user_id
        ∧ Bookings.table_id b = table_id
        ∧ Bookings.booking_date b = booking_date
        ∧ Bookings.booking_time b = booking_time
        ∧ Bookings.status b = Some (default "pending" status))
  ∧ keys_issued (bookings (db w')).
Proof.
  intros Hkeys Hrun.
  destruct (create_booking_cases w user_id table_id booking_date booking_time status)
    as [(Hn & Hrows & Hlast & _) | [Hn _]];
    rewrite Hrun in *; cbn [fst snd] in *; [|discriminate Hn].
  injection Hn as ->. split.
  - exists (new_booking (db w) user_id table_id booking_date booking_time
              (default "pending" status) (now w)).
    split; [|by repeat split].
    rewrite get_booking_by_id_run. cbn [fst]. rewrite Hrows. unfold with_id.
    rewrite filter_app, filter_cons_True by done. rewrite filter_nil.
    rewrite filter_none; [done|].
    intros b Hb E. apply Hkeys in Hb.
    cbn [new_booking Bookings.id] in E. lia.
  - intros b Hb. rewrite Hrows in Hb. rewrite Hlast.
    apply elem_of_app in Hb as [Hb|Hb].
    + apply Hkeys in Hb. cbn [new_booking Bookings.id]. lia.
    + apply list_elem_of_singleton in Hb as ->. lia.
Qed.

Lemma create_booking_then_get_witness :
  ∃ b, fst (BookingModel.get_booking_by_id 3
              (snd (BookingModel.create_booking 1 1 june2 (at_ 12 0) None demo)))
       = Some b
       ∧ Bookings.id b = 3
       ∧ Bookings.user_id b = 1
       ∧ Bookings.table_id b = 1
       ∧ Bookings.booking_date b = june2
       ∧ Bookings.booking_time b = at_ 12 0
       ∧ Bookings.status b = Some "pending".
Proof.
  refine (proj1 (create_booking_then_get demo _ 1 1 june2 (at_ 12 0) None 3 _ _)).
  - intros b Hb. simpl in Hb.
    apply elem_of_cons in Hb as [->|Hb]; [simpl; lia|].
    apply elem_of_cons in Hb as [->|Hb]; [simpl; lia|by apply elem_of_nil in Hb].
  - vm_compute. reflexivity.
Defined.

Lemma active_of_valid (s : string) :
  s ∈ BookingModel.valid_statuses → s ≠ "cancelled" →
  s = "reserved" ∨ s = "pending".
Proof.
  intros Hs Hc. unfold BookingModel.valid_statuses in Hs.
  apply elem_of_cons in Hs as [->|Hs]; [by left|].
  apply elem_of_cons in Hs as [->|Hs]; [done|].
  apply elem_of_cons in Hs as [->|Hs]; [by right|].
  by apply elem_of_nil in Hs.
Qed.

(** X11.  After [create_booking] has stored a booking that is not
    cancelled, [check_table_availability] answers [False] for that table and
    date at every time less than an hour from it. *)
Theorem created_booking_blocks_its_hour (w w' : World) (user_id table_id : Z)
  (booking_date : date) (booking_time : time) (status : option string) (n : Z) :
  BookingModel.create_booking user_id table_id booking_date booking_time status w
  = (Some n, w') →
  default "pending" status ≠ "cancelled" →
  ∀ t, time_diff t booking_time < one_hour →
       fst (BookingModel.check_table_availability table_id booking_date t w')
       = false.
Proof.
  intros Hrun Hlive t Hnear.
  destruct (create_booking_cases w user_id table_id booking_date booking_time status)
    as [(_ & Hrows & _ & Hvalid & _) | [Hn _]];
    rewrite Hrun in *; cbn [fst snd] in *; [|discriminate Hn].
  rewrite check_table_availability_run. cbn [fst]. unfold verdict.
  destruct (find_table (db w') table_id) as [table|]; [|reflexivity].
  destruct (bool_decide _); [reflexivity|].
  apply no_conflict_false.
  exists (new_booking (db w) user_id table_id booking_date booking_time
            (default "pending" status) (now w)).
  split; [|exact Hnear].
  apply list_elem_of_filter. split.
  - split; [reflexivity|]. split; [reflexivity|].
    unfold is_active. cbn [new_booking Bookings.status].
    destruct (active_of_valid _ Hvalid Hlive) as [->| ->]; [by left|by right].
  - rewrite Hrows. apply elem_of_app. right. left.
Qed.

Lemma created_booking_blocks_its_hour_witness :
  fst (BookingModel.check_table_availability 1 june2 (at_ 12 30)
         (snd (BookingModel.create_booking 1 1 june2 (at_ 12 0) None demo)))
  = false
  ∧ fst (BookingModel.check_table_availability 1 june2 (at_ 12 30) demo) = true.
Proof.
  split.
  - refine (created_booking_blocks_its_hour demo _ 1 1 june2 (at_ 12 0) None 3
              _ _ (at_ 12 30) _).
    + vm_compute. reflexivity.
    + discriminate.
    + vm_compute. reflexivity.
  - vm_compute. reflexivity.
Defined.

Lemma update_booking_true_db (w w' : World) (booking_id : Z)
  (user_id table_id : option Z) (booking_date : option date)
  (booking_time : option time) (status : option string) :
  BookingModel.update_booking booking_id user_id table_id booking_date
    booking_time status w = (true, w') →
  db w' = with_bookings (db w)
            (rewrite_where booking_id
               (rewrite_booking (now w) user_id table_id booking_date
                  booking_time status)
               (rows (bookings (db w)))).
Proof.
  intros Hrun.
  destruct (BookingModel.update_data (now w) (today w) user_id table_id
              booking_date booking_time status) as [data|] eqn:Hdata.
  - destruct (decide (user_id = None ∧ table_id = None ∧ booking_date = None
                      ∧ booking_time = None ∧ status = None)) as [Hall|Hsome].
    + destruct Hall as (-> & -> & -> & -> & ->).
      rewrite update_booking_nothing in Hrun. discriminate Hrun.
    + rewrite (update_booking_run w booking_id _ _ _ _ _ data Hdata Hsome) in Hrun.
      destruct (forallb _ _); [|discriminate Hrun].
      injection Hrun as _ <-. reflexivity.
  - unfold BookingModel.update_booking, bind, get_now, get_today in Hrun.
    rewrite Hdata in Hrun. discriminate Hrun.
Qed.

(** X12.  After [set_status] has cancelled a booking, a slot of an existing
    table that is not unavailable is free as soon as every other active
    booking of that table and date is an hour or more away. *)
Theorem cancelled_booking_frees_its_slot (w w' : World) (booking_id : Z)
  (table_id : Z) (booking_date : date) (booking_time : time)
  (table : Tables.row) :
  BookingModel.set_status booking_id "cancelled" w = (true, w') →
  find_table (db w) table_id = Some table →
  Tables.status table ≠ Some "unavailable" →
  (∀ b, b ∈ rows (bookings (db w)) → candidate table_id booking_date b →
        Bookings.id b ≠ booking_id →
        one_hour ≤ time_diff booking_time (Bookings.booking_time b)) →
  fst (BookingModel.check_table_availability table_id booking_date
         booking_time w') = true.
Proof.
  intros Hrun Hfind Hst Hfar.
  apply update_booking_true_db in Hrun.
  rewrite check_table_availability_run. cbn [fst]. unfold verdict.
  rewrite Hrun. unfold find_table in *. cbn [with_bookings tables bookings rows].
  rewrite Hfind. rewrite (bool_decide_eq_false_2 _ Hst).
  apply no_conflict_true. intros b' Hb'.
  apply list_elem_of_filter in Hb' as [Hc Hb'].
  unfold rewrite_where in Hb'. apply list_elem_of_fmap in Hb' as (b & -> & Hb).
  destruct (decide (Bookings.id b = booking_id)) as [Hid|Hid].
  - exfalso. destruct Hc as (_ & _ & [E|E]); discriminate E.
  - by apply Hfar.
Qed.

Lemma cancelled_booking_frees_its_slot_witness :
  fst (BookingModel.check_table_availability 1 june1 (at_ 19 0)
         (snd (BookingModel.set_status 1 "cancelled" demo))) = true
  ∧ fst (BookingModel.check_table_availability 1 june1 (at_ 19 0) demo) = false.
Proof.
  split.
  - refine (cancelled_booking_frees_its_slot demo _ 1 1 june1 (at_ 19 0)
              (Tables.mk 1 7 4 (Some "available")) _ _ _ _).
    + vm_compute. reflexivity.
    + reflexivity.
    + discriminate.
    + intros b Hb (_ & _ & Hact) Hid. simpl in Hb.
      apply elem_of_cons in Hb as [->|Hb]; [done|].
      apply elem_of_cons in Hb as [->|Hb]; [|by apply elem_of_nil in Hb].
      destruct Hact as [E|E]; discriminate E.
  - vm_compute. reflexivity.
Defined.

Lemma time_diff_sym (a b : time) : time_diff a b = time_diff b a.
Proof. unfold time_diff. lia. Qed.

Lemma lookup_snoc_Some {A} (l : list A) (x y : A) (i : nat) :
  (l ++ [x]) !! i = Some y →
  l !! i = Some y ∨ (i = length l ∧ y = x).
Proof.
  intros H. apply lookup_app_Some in H as [H | [Hge H]]; [by left|right].
  destruct (i - length l)%nat as [|k] eqn:E; [|by destruct k].
  injection H as <-. split; [lia|done].
Qed.

Lemma spaced_snoc (l : list Bookings.row) (b : Bookings.row) :
  spaced l →
  (∀ x, x ∈ l →
        candidate (Bookings.table_id b) (Bookings.booking_date b) x →
        one_hour ≤ time_diff (Bookings.booking_time b) (Bookings.booking_time x)) →
  spaced (l ++ [b]).
Proof.
  intros Hl Hb i j b1 b2 Hij H1 H2 A1 A2 Ht Hd.
  apply lookup_snoc_Some in H1 as [H1 | [-> ->]];
    apply lookup_snoc_Some in H2 as [H2 | [-> ->]].
  - by apply (Hl i j).
  - rewrite time_diff_sym. apply Hb.
    + apply list_elem_of_lookup. eauto.
    + by repeat split.
  - apply Hb.
    + apply list_elem_of_lookup. eauto.
    + by repeat split.
  - done.
Qed.

(** X13.  If any two active bookings of one table on one date are an hour
    apart, they still are after the form's creation handler has run,
    whatever it was asked to create. *)
Theorem form_create_keeps_bookings_apart (w : World) (user_id table_id : Z)
  (booking_date : date) (booking_time : time) :
  spaced (rows (bookings (db w))) →
  spaced (rows (bookings (db (snd (BookingsTab.create_booking user_id table_id
                                     booking_date booking_time w))))).
Proof.
  intros Hsp. rewrite form_create_run.
  destruct (verdict (db w) table_id booking_date booking_time) eqn:Hv.
  - pose proof (create_booking_cases
                  (sent w (status_probe table_id
                           ++ availability_probe (db w) table_id booking_date))
                  user_id table_id booking_date booking_time (Some "reserved"))
      as Hc.
    cbv zeta in Hc.
    destruct (BookingModel.create_booking _ _ _ _ _ _) as [r w2].
    cbn [fst snd] in *.
    destruct Hc as [(_ & -> & _) | [_ ->]]; [|exact Hsp].
    cbn [sent db]. apply spaced_snoc; [exact Hsp|].
    cbn [new_booking Bookings.table_id Bookings.booking_date Bookings.booking_time].
    intros x Hx Hcand.
    unfold verdict in Hv.
    destruct (find_table (db w) table_id); [|discriminate Hv].
    destruct (bool_decide _); [discriminate Hv|].
    apply (proj1 (no_conflict_true _ _) Hv). by apply list_elem_of_filter.
  - destruct (if table_id =? 0 then _ else _); exact Hsp.
Qed.

Lemma form_create_keeps_bookings_apart_witness :
  spaced (rows (bookings (db (snd (BookingsTab.create_booking 1 1 june1 (at_ 20 0)
                                     demo))))).
Proof.
  apply form_create_keeps_bookings_apart.
  intros i j b1 b2 Hij H1 H2 A1 A2 _ _.
  destruct i as [|[|i]], j as [|[|j]]; simpl in H1, H2;
    try discriminate H1; try discriminate H2; try done;
    injection H1 as <-; injection H2 as <-;
    first [destruct A1 as [E|E]; discriminate E
          | destruct A2 as [E|E]; discriminate E].
Defined.

(** X14.  A status outside ['reserved'], ['cancelled'], ['pending'] makes
    [create_booking] return [None] and [update_booking] and [set_status]
    return [False], with no statement sent, whatever the other arguments. *)
Theorem invalid_status_rejected (w : World) (s : string) (user_id table_id : Z)
  (booking_date : date) (booking_time : time) (booking_id : Z)
  (new_user new_table : option Z) (new_date : option date)
  (new_time : option time) :
  s ∉ BookingModel.valid_statuses →
  BookingModel.create_booking user_id table_id booking_date booking_time
    (Some s) w = (None, w)
  ∧ BookingModel.update_booking booking_id new_user new_table new_date new_time
      (Some s) w = (false, w)
  ∧ BookingModel.set_status booking_id s w = (false, w).
Proof.
  intros Hbad.
  assert (Hupd : ∀ a b c e,
            BookingModel.update_booking booking_id a b c e (Some s) w = (false, w)).
  { intros a b c e.
    unfold BookingModel.update_booking, bind, get_now, get_today,
      BookingModel.update_data.
    rewrite (bool_decide_eq_false_2 _ Hbad).
    destruct c as [dd|]; [destruct (date_ltb dd (today w))|]; reflexivity. }
  split; [|split; [apply Hupd | apply Hupd]].
  unfold BookingModel.create_booking. cbn [default].
  by rewrite (bool_decide_eq_false_2 _ Hbad).
Qed.

Lemma invalid_status_rejected_witness :
  BookingModel.create_booking 1 1 june2 (at_ 12 0) (Some "confirmed") demo
  = (None, demo)
  ∧ BookingModel.update_booking 1 None None None (Some (at_ 12 0))
      (Some "confirmed") demo = (false, demo)
  ∧ BookingModel.set_status 1 "confirmed" demo = (false, demo).
Proof.
  refine (invalid_status_rejected demo "confirmed" 1 1 june2 (at_ 12 0) 1
            None None None (Some (at_ 12 0)) _).
  vm_compute. intros H.
  repeat (inversion H as [|? ? ? H']; subst; clear H; rename H' into H).
Defined.

Lemma no_conflict_any_order (booking_time : time) (l1 l2 : list Bookings.row) :
  l1 ≡ₚ l2 →
  BookingModel.no_conflict booking_time l1
  = BookingModel.no_conflict booking_time l2.
Proof.
  intros Hp.
  destruct (BookingModel.no_conflict booking_time l2) eqn:E2.
  - apply no_conflict_true. intros b Hb. rewrite Hp in Hb.
    by apply (proj1 (no_conflict_true _ _) E2).
  - apply no_conflict_false. apply no_conflict_false in E2 as (b & Hb & Hlt).
    exists b. split; [by rewrite Hp|done].
Qed.

(** X15.  The answer of [check_table_availability] does not depend on the
    order in which the store holds (and returns) the bookings. *)
Theorem availability_ignores_row_order (w1 w2 : World) (table_id : Z)
  (booking_date : date) (booking_time : time) :
  tables (db w1) = tables (db w2) →
  rows (bookings (db w1)) ≡ₚ rows (bookings (db w2)) →
  fst (BookingModel.check_table_availability table_id booking_date
         booking_time w1)
  = fst (BookingModel.check_table_availability table_id booking_date
           booking_time w2).
Proof.
  intros Ht Hp. rewrite !check_table_availability_run. cbn [fst].
  unfold verdict, find_table. rewrite Ht.
  destruct (head _) as [table|]; [|reflexivity].
  destruct (bool_decide _); [reflexivity|].
  apply no_conflict_any_order. by rewrite Hp.
Qed.

Lemma availability_ignores_row_order_witness :
  fst (BookingModel.check_table_availability 1 june1 (at_ 19 30) busy)
  = fst (BookingModel.check_table_availability 1 june1 (at_ 19 30) busy_reversed).
Proof.
  apply availability_ignores_row_order; [reflexivity|].
  symmetry. apply reverse_Permutation.
Defined.

(** X16.  After [delete_table], [check_table_availability] answers [False]
    for the deleted key at every date and time. *)
Theorem deleted_table_is_rejected (w : World) (table_id : Z)
  (booking_date : date) (booking_time : time) :
  fst (BookingModel.check_table_availability table_id booking_date booking_time
         (snd (TableModel.delete_table table_id w))) = false.
Proof.
  rewrite delete_table_run, check_table_availability_run. cbn [fst snd db].
  unfold verdict, find_table. cbn [tables rows].
  rewrite list_filter_filter, filter_none; [reflexivity|].
  intros r _ [E1 E2]. done.
Qed.

(** X17.  [check_table_availability] never writes: the store is left as it
    was and every statement it sends is a read. *)
Theorem check_table_availability_reads_only (w : World) (table_id : Z)
  (booking_date : date) (booking_time : time) :
  let out := BookingModel.check_table_availability table_id booking_date
               booking_time w in
  db (snd out) = db w
  ∧ ∃ reads, log (snd out) = log w ++ reads ∧ Forall is_read reads.
Proof.
  intros out. subst out. rewrite check_table_availability_run. cbn [snd].
  split; [reflexivity|]. eexists. split; [reflexivity|].
  destruct (find_table (db w) table_id) as [table|];
    [destruct (bool_decide _)|]; repeat constructor.
Qed.

(** ** The driver's UPDATE *)
Lemma users_assign_id (data : dict) (r r' : Users.row) :
  Users.assign data r = Some r' → Users.id r' = Users.id r.
Proof. unfold Users.assign. intros H. by simplify_option_eq. Qed.

Lemma tables_assign_id (data : dict) (r r' : Tables.row) :
  Tables.assign data r = Some r' → Tables.id r' = Tables.id r.
Proof. unfold Tables.assign. intros H. by simplify_option_eq. Qed.

Lemma bookings_assign_id (data : dict) (r r' : Bookings.row) :
  Bookings.assign data r = Some r' → Bookings.id r' = Bookings.id r.
Proof. unfold Bookings.assign. intros H. by simplify_option_eq. Qed.

Lemma mapM_keeps_keys {A} (key : A → Z) (f : A → option A) (l k : list A) :
  (∀ x y, f x = Some y → key y = key x) →
  mapM f l = Some k → key <$> k = key <$> l.
Proof.
  intros Hf H. apply mapM_Some in H.
  induction H as [|x y l k Hxy _ IH]; [done|].
  rewrite !fmap_cons, IH. f_equal. by apply Hf.
Qed.

Section UpdateOne.
Context {R : Type} {HR : Relation R}.
Hypothesis assign_id :
  ∀ data (r r' : R), rel_assign data r = Some r' → rel_id r' = rel_id r.

Lemma sql_update_cases (data w : dict) (d : Database) :
  snd (sql_update (R:=R) data w d) = d
  ∨ ∃ new, snd (sql_update (R:=R) data w d)
           = rel_put (mk_rel new (last_id (rel_get d))) d
           ∧ rel_id <$> new = rel_id <$> rows (rel_get d).
Proof.
  unfold sql_update. destruct (bool_decide _); [|by left].
  destruct (mapM _ (rows (rel_get d))) as [new|] eqn:Hnew; [|by left].
  destruct (mapM _ (filter _ _)) as [changed|]; [|by left].
  destruct (forallb _ _); [|by left]. right. exists new. split; [done|].
  apply (mapM_keeps_keys rel_id _ _ _) in Hnew; [done|].
  intros x y. destruct (decide _); [apply assign_id | by intros [= ->]].
Qed.

End UpdateOne.

(** X18.  The driver's [update] never adds or removes a row nor changes a
    key, in any relation, for any table name, data and filter; with empty
    data or an empty filter it returns 0 and sends nothing. *)
Theorem update_keeps_rows_and_keys (table_name : string) (data where_ : dict)
  (w : World) :
  keys (db (snd (PostgreSQLDriver.update table_name data where_ w)))
  = keys (db w)
  ∧ (data = ∅ ∨ where_ = ∅ →
     PostgreSQLDriver.update table_name data where_ w = (0, w)).
Proof.
  unfold PostgreSQLDriver.update. split.
  - destruct (_ || _); [reflexivity|].
    unfold bind, execute, ret, sql_update_in.
    destruct (decide (table_name = "users")).
    { destruct (sql_update_cases (HR:=users_relation) users_assign_id data where_ (db w))
        as [E | (new & E & Hk)];
        destruct (sql_update data where_ (db w)) as [r d'];
        cbn [snd db] in *; subst d'; [reflexivity|].
      unfold keys. cbn in Hk |- *. by rewrite Hk. }
    destruct (decide (table_name = "tables")).
    { destruct (sql_update_cases (HR:=tables_relation) tables_assign_id data where_ (db w))
        as [E | (new & E & Hk)];
        destruct (sql_update data where_ (db w)) as [r d'];
        cbn [snd db] in *; subst d'; [reflexivity|].
      unfold keys. cbn in Hk |- *. by rewrite Hk. }
    destruct (decide (table_name = "bookings")).
    { destruct (sql_update_cases (HR:=bookings_relation) bookings_assign_id data where_ (db w))
        as [E | (new & E & Hk)];
        destruct (sql_update data where_ (db w)) as [r d'];
        cbn [snd db] in *; subst d'; [reflexivity|].
      unfold keys. cbn in Hk |- *. by rewrite Hk. }
    reflexivity.
  - intros [-> | ->].
    + reflexivity.
    + destruct (bool_decide (data = ∅)); reflexivity.
Qed.

Lemma update_keeps_rows_and_keys_witness :
  keys (db (snd (PostgreSQLDriver.update "bookings"
                   {[ "status" := VStr "cancelled" ]}
                   {[ "table_id" := VInt 1 ]} demo)))
  = keys (db demo)
  ∧ PostgreSQLDriver.update "bookings" {[ "status" := VStr "cancelled" ]} ∅ demo
    = (0, demo).
Proof.
  split.
  - exact (proj1 (update_keeps_rows_and_keys "bookings"
                    {[ "status" := VStr "cancelled" ]}
                    {[ "table_id" := VInt 1 ]} demo)).
  - apply (proj2 (update_keeps_rows_and_keys "bookings"
                    {[ "status" := VStr "cancelled" ]} ∅ demo)).
    by right.
Defined.

Section Touch.
Variable hash_password : string → string.

(** X19.  Unlike [update_booking], [update_user] with every field left out
    is sent to the store: for an existing user (whose email is unique) it
    answers [True] and changes [updated_at] only. *)
Theorem update_user_without_fields_succeeds (user_id : Z) (w : World) :
  (∃ u, u ∈ rows (users (db w)) ∧ Users.id u = user_id) →
  (∀ u, u ∈ rows (users (db w)) → Users.id u = user_id →
        length (filter (λ x, Users.email x = Users.email u) (rows (users (db w))))
        = 1%nat) →
  UserModel.update_user hash_password user_id None None None None None None w
  = (true,
     mk_world
       (mk_db
          (mk_rel ((λ u, if decide (Users.id u = user_id)
                         then touched (now w) u else u)
                   <$> rows (users (db w)))
             (last_id (users (db w))))
          (tables (db w)) (bookings (db w)))
       (today w) (now w) (log w ++ [touch_call user_id (now w)])).
Proof.
  intros Hex Huniq.
  unfold UserModel.update_user, bind, get_now, PostgreSQLDriver.update.
  change (bool_decide (({[ "updated_at" := VStamp (now w) ]} : dict) = ∅))
    with false.
  change (bool_decide (({[ "id" := VInt user_id ]} : dict) = ∅)) with false.
  cbn [orb]. unfold bind, execute, ret. cbv beta iota.
  change (sql_update_in UserModel.table_name {[ "updated_at" := VStamp (now w) ]}
            {[ "id" := VInt user_id ]} (db w))
    with (sql_update (R:=Users.row) {[ "updated_at" := VStamp (now w) ]}
            {[ "id" := VInt user_id ]} (db w)).
  unfold sql_update.
  change (bool_decide (dom ({[ "updated_at" := VStamp (now w) ]} : dict)
                       ⊆ rel_columns Users.row)) with true.
  change (rel_get (db w)) with (users (db w)).
  rewrite (list_filter_iff (matches {[ "id" := VInt user_id ]})
             (λ r, Users.id r = user_id)) by apply users_matches_id.
  rewrite (mapM_total _ (λ u, if decide (Users.id u = user_id)
                              then touched (now w) u else u)).
  2:{ intros u. destruct (decide (matches _ u)) as [Hm|Hm];
        destruct (decide (Users.id u = user_id)) as [Hi|Hi];
        rewrite users_matches_id in Hm; done. }
  rewrite (mapM_total _ (touched (now w))) by done.
  cbv beta iota zeta.
  assert (Hok : forallb
            (rel_row_ok
               (rel_put
                  (mk_rel ((λ u, if decide (Users.id u = user_id)
                                 then touched (now w) u else u)
                           <$> rows (users (db w)))
                     (last_id (users (db w)))) (db w)))
            (touched (now w)
             <$> filter (λ r, Users.id r = user_id) (rows (users (db w))))
          = true).
  { apply Is_true_true, forallb_True, Forall_forall. intros x Hx.
    apply list_elem_of_fmap in Hx as (u & -> & Hu).
    apply list_elem_of_filter in Hu as [Hid Hu].
    apply Is_true_true. cbn [rel_row_ok rel_put users_relation users rows].
    apply bool_decide_eq_true_2.
    rewrite filter_fmap_length. rewrite <- (Huniq u Hu Hid). f_equal.
    apply list_filter_iff. intros y. cbn [touched Users.email].
    by destruct (decide (Users.id y = user_id)). }
  rewrite Hok. cbn [default from_option id].
  rewrite (proj2 (filter_nonempty (λ r, Users.id r = user_id) _) Hex).
  reflexivity.
Qed.

End Touch.

Lemma update_user_without_fields_succeeds_witness :
  fst (UserModel.update_user (λ p, p) 1 None None None None None None demo) = true
  ∧ fst (BookingModel.update_booking 1 None None None None None demo) = false.
Proof.
  split.
  - rewrite (update_user_without_fields_succeeds (λ p, p) 1 demo); [reflexivity| |].
    + eexists. split; [left | reflexivity].
    + intros u Hu _. simpl in Hu.
      apply elem_of_cons in Hu as [->|Hu]; [reflexivity|by apply elem_of_nil in Hu].
  - reflexivity.
Defined.

(** X20.  For a table the store holds, the creation handler reports an
    unavailable table as such, after one read, and a booking less than an
    hour away on an available table as a taken slot, after the reads of the
    availability check. *)
Theorem form_dialog_names_the_cause (w : World) (user_id table_id : Z)
  (booking_date : date) (booking_time : time) (table : Tables.row) :
  table_id ≠ 0 →
  find_table (db w) table_id = Some table →
  let out := BookingsTab.create_booking user_id table_id booking_date
               booking_time w in
  (Tables.status table = Some "unavailable" →
   out = (BookingsTab.ErrorTableUnavailable, sent w [select_table table_id]))
  ∧ (Tables.status table ≠ Some "unavailable" →
     (∃ b, b ∈ rows (bookings (db w)) ∧ candidate table_id booking_date b
           ∧ time_diff booking_time (Bookings.booking_time b) < one_hour) →
     out = (BookingsTab.ErrorSlotTaken,
            sent w [select_table table_id; select_table table_id;
                    select_active table_id booking_date])).
Proof.
  intros Hnz Hfind out. subst out. rewrite form_create_run.
  unfold verdict, status_probe, availability_probe. rewrite Hfind.
  rewrite (proj2 (Z.eqb_neq _ _) Hnz). split.
  - intros Hst. by rewrite (bool_decide_eq_true_2 _ Hst).
  - intros Hst (b & Hb & Hc & Hlt). rewrite (bool_decide_eq_false_2 _ Hst).
    assert (Hconf : BookingModel.no_conflict booking_time
                      (filter (candidate table_id booking_date)
                         (rows (bookings (db w)))) = false).
    { apply no_conflict_false. exists b. split; [|done].
      by apply list_elem_of_filter. }
    by rewrite Hconf.
Qed.

Lemma form_dialog_names_the_cause_witness :
  BookingsTab.create_booking 1 2 june1 (at_ 19 30) demo
  = (BookingsTab.ErrorTableUnavailable, sent demo [select_table 2])
  ∧ BookingsTab.create_booking 1 1 june1 (at_ 19 30) demo
    = (BookingsTab.ErrorSlotTaken,
       sent demo [select_table 1; select_table 1; select_active 1 june1]).
Proof.
  split.
  - refine (proj1 (form_dialog_names_the_cause demo 1 2 june1 (at_ 19 30)
                     (Tables.mk 2 8 2 (Some "unavailable")) _ _) _);
      [lia | reflexivity | reflexivity].
  - refine (proj2 (form_dialog_names_the_cause demo 1 1 june1 (at_ 19 30)
                     (Tables.mk 1 7 4 (Some "available")) _ _) _ _);
      [lia | reflexivity | discriminate |].
    exists (Bookings.mk 1 1 1 june1 (at_ 19 0) (Some "reserved") (Some 0) (Some 0)).
    split; [left|]. split; [repeat split; by left|]. vm_compute. reflexivity.
Defined.
